(** * Settlement workflows of the payments service

    A shallow embedding of [src/services/payments/payments.service.ts]
    (class [PaymentsService]) and the properties of its three entry points
    [chargeSubscription], [chargeDonation] and [chargePromotion].

    JavaScript numbers that count lamports (balances, plan fees) are
    modelled by [Z]; the amount of a donation, a number of SOL that is
    seldom whole, is also taken as a binary64 number in [Binary64], with the
    multiplication and the subtraction of the source rounded as the machine
    rounds them.  An [async] function is modelled as a computation that
    threads the trace of the calls it makes to its collaborators and that
    either completes normally or throws (a rejected promise). *)

From Stdlib Require Import ZArith List String Bool Lia.
From Stdlib Require PrimFloat SpecFloat FloatOps.
Import ListNotations.

Open Scope string_scope.
Open Scope list_scope.
Open Scope Z_scope.

(** ** Completions: a value, or an exception *)

Inductive Completion (A : Type) : Type :=
| Normal (a : A)
| Thrown.

Arguments Normal {A} a.
Arguments Thrown {A}.

(** ** Data *)

(** The Prisma enumeration [SubscriptionPlan]; the source names its members
    ['FREE'], [HOBBY] and [PRO]. *)
Inductive SubscriptionPlan : Type := FREE | HOBBY | PRO.

(** [ApplicationPlatform] and [PromotionType] are Prisma enumerations whose
    members are not listed in the source; at run time they are strings. *)
Definition ApplicationPlatform := string.
Definition PromotionType := string.

(** The members of [PaymentsMessageEnum] that the service returns. *)
Inductive PaymentsMessageEnum : Type :=
| NO_USER_FOUND
| USER_ALREADY_PAID
| INVALID_PLAN
| INSUFFICIENT_BALANCE
| INTERNAL_ERROR
| PLAN_UPGRADED
| DONATION_MADE
| TRANSACTION_SUCCESS.

Record Subscription : Type := {
  platform : ApplicationPlatform;
  plan : SubscriptionPlan;
  subscriptionCurrentPeriodEnd : option Z
}.

Record User : Type := {
  id : string;
  personalWalletPubKey : string;
  personalWalletPrivKey : string;
  userSubscriptions : list Subscription
}.

Record PublicKey : Type := { base58 : string }.

Record Keypair : Type := { secretKey : string }.

(** The instruction built by [SystemProgram.transfer]. *)
Record TransferInstruction : Type := {
  fromPubkey : PublicKey;
  toPubkey : PublicKey;
  lamports : Z
}.

(** The value every entry point returns.  [chargeSubscription] has a
    [subscriptionEnd : string | null] (here [E := option string]); the other
    two entry points have no such field (here [E := unit]). *)
Record ChargeOutcome (E : Type) : Type := {
  success : bool;
  message : PaymentsMessageEnum;
  subscriptionEnd : E
}.

Arguments success {E} _.
Arguments message {E} _.
Arguments subscriptionEnd {E} _.

(** The values imported from [../../constants]; the module is not part of
    the sources at hand, so they are parameters of the model. *)
Record Constants : Type := {
  BETTER_CALL_SOL_PK : string;
  HOBBY_PLAN_FEE : Z;
  PRO_PLAN_FEE : Z;
  MAX_HOBBY_PERIOD : Z;
  MAX_PRO_PERIOD : Z
}.

(** Modelled from the spec: the table [SUBSCRIPTION_HIERARCHY] of
    [../../constants] is missing; the spec gives the ranks as the total
    order FREE < HOBBY < PRO with FREE lowest. *)
Definition SUBSCRIPTION_HIERARCHY (p : SubscriptionPlan) : Z :=
  match p with
  | FREE => 0
  | HOBBY => 1
  | PRO => 2
  end.

(** [LAMPORTS_PER_SOL] of [@solana/web3.js]. *)
Definition LAMPORTS_PER_SOL : Z := 1000000000.

(** ** Collaborators

    What the service calls and does not define: the two Prisma
    repositories, [getAccountBalance] and [TransactionService] of
    [@solana-bot/core], the constructors of [@solana/web3.js] and [format]
    of [date-fns].  Every entry point calls each of them at most once, so an
    answer per argument describes every possible behaviour. *)
Record Collaborators : Type := {
  constants : Constants;
  (** [prismaUserRepository.getById] *)
  getById : string -> Completion (option User);
  (** [new PublicKey(s)] throws unless [s] is a well-formed address *)
  validPublicKey : string -> bool;
  (** [getAccountBalance(connection, key)]: a number, or [undefined] *)
  getAccountBalance : PublicKey -> Completion (option Z);
  (** [SystemProgram.transfer] throws when it cannot encode its argument *)
  transferEncodes : TransferInstruction -> bool;
  (** [Keypair.fromSecretKey] throws on a malformed secret key *)
  validSecretKey : string -> bool;
  (** [transactionService.createAndSendNativeV0Tx]: the [confirmed] flag *)
  createAndSendNativeV0Tx :
    list TransferInstruction -> Keypair -> Completion bool;
  (** [prismaSubscriptionRepository.updateUserSubscription] *)
  repoUpdateUserSubscription :
    string -> SubscriptionPlan -> ApplicationPlatform -> option Z ->
    Completion Subscription;
  (** [prismaUserRepository.hasDonated] *)
  hasDonated : string -> Completion unit;
  (** [prismaSubscriptionRepository.buyPromotion]: the [message] field *)
  buyPromotion : string -> PromotionType -> Completion string;
  (** [format(date, 'MM/dd/yyyy')] *)
  format : Z -> string;
  (** [format(null, 'MM/dd/yyyy')]: a text or an exception, as the version
      of [date-fns] has it *)
  formatMissing : Completion string
}.

(** ** Traces and the monad of asynchronous computations *)

(** One event per awaited call to a collaborator, with its arguments. *)
Inductive Event : Type :=
| CallGetById (userId : string)
| CallGetAccountBalance (account : PublicKey)
| CallCreateAndSend (instructions : list TransferInstruction)
    (signer : Keypair)
| CallUpdateUserSubscription (userId : string) (p : SubscriptionPlan)
    (pf : ApplicationPlatform) (period : option Z)
| CallHasDonated (userId : string)
| CallBuyPromotion (userId : string) (promotionType : PromotionType).

Definition Trace := list Event.

Definition Async (A : Type) : Type := Trace -> Completion A * Trace.

Definition ret {A : Type} (a : A) : Async A := fun t => (Normal a, t).

Definition bind {A B : Type} (m : Async A) (f : A -> Async B) : Async B :=
  fun t =>
    match m t with
    | (Normal a, t') => f a t'
    | (Thrown, t') => (Thrown, t')
    end.

(** [try { m } catch (error) { h }] *)
Definition try_catch {A : Type} (m : Async A) (h : Async A) : Async A :=
  fun t =>
    match m t with
    | (Normal a, t') => (Normal a, t')
    | (Thrown, t') => h t'
    end.

(** A synchronous operation that may throw. *)
Definition lift {A : Type} (c : Completion A) : Async A := fun t => (c, t).

(** An awaited call: it is recorded, then completes as the collaborator
    decides. *)
Definition await {A : Type} (e : Event) (c : Completion A) : Async A :=
  fun t => (c, t ++ [e]).

Definition run {A : Type} (m : Async A) : Completion A * Trace := m [].

Notation "x <- m ;; k" := (bind m (fun x => k))
  (at level 61, m at next level, right associativity).

(** ** JavaScript idioms *)

(** [!n] for [n : number | undefined] is true on [undefined] and on [0];
    [truthy n] is the number when [!n] is false. *)
Definition truthy (n : option Z) : option Z :=
  match n with
  | Some v => if v =? 0 then None else Some v
  | None => None
  end.

Definition plan_eqb (a b : SubscriptionPlan) : bool :=
  match a, b with
  | FREE, FREE | HOBBY, HOBBY | PRO, PRO => true
  | _, _ => false
  end.

(** ** The service *)

Module PaymentsService.

Definition SIGNATURE_FEE : Z := 5000.

Definition failure {E : Type} (m : PaymentsMessageEnum) (e : E)
  : ChargeOutcome E :=
  {| success := false; message := m; subscriptionEnd := e |}.

(** [new PublicKey(s)] *)
Definition newPublicKey (env : Collaborators) (s : string)
  : Completion PublicKey :=
  if validPublicKey env s then Normal {| base58 := s |} else Thrown.

(** [user.userSubscriptions.find((sub) => sub.platform === platform)] *)
Definition findSubscription (user : User) (pf : ApplicationPlatform)
  : option Subscription :=
  find (fun sub => String.eqb (platform sub) pf) (userSubscriptions user).

(** [subscription?.plan] *)
Definition planOf (subscription : option Subscription)
  : option SubscriptionPlan :=
  option_map plan subscription.

(** [userPlan ?? 'FREE'] *)
Definition orFree (userPlan : option SubscriptionPlan) : SubscriptionPlan :=
  match userPlan with
  | Some p => p
  | None => FREE
  end.

Definition isInvalidUpgrade (p : SubscriptionPlan)
  (userPlan : option SubscriptionPlan) : bool :=
  match userPlan with
  | Some up => plan_eqb up p
  | None => false
  end
  || (SUBSCRIPTION_HIERARCHY (orFree userPlan) >? SUBSCRIPTION_HIERARCHY p).

Definition createTransaction (env : Collaborators)
  (userPublicKey : PublicKey) (fee : Z)
  : Completion (list TransferInstruction) :=
  match newPublicKey env (BETTER_CALL_SOL_PK (constants env)) with
  | Normal operator =>
      let instruction :=
        {| fromPubkey := userPublicKey;
           toPubkey := operator;
           lamports := fee |} in
      if transferEncodes env instruction then Normal [instruction]
      else Thrown
  | Thrown => Thrown
  end.

Definition getKeypairFromPrivateKey (env : Collaborators)
  (base64PrivateKey : string) : Completion Keypair :=
  if validSecretKey env base64PrivateKey
  then Normal {| secretKey := base64PrivateKey |}
  else Thrown.

(** [{ HOBBY: HOBBY_PLAN_FEE, PRO: PRO_PLAN_FEE }[plan]] *)
Definition getPlanFee (env : Collaborators) (p : SubscriptionPlan)
  : option Z :=
  match p with
  | HOBBY => Some (HOBBY_PLAN_FEE (constants env))
  | PRO => Some (PRO_PLAN_FEE (constants env))
  | FREE => None
  end.

(** [{ HOBBY: MAX_HOBBY_PERIOD, PRO: MAX_PRO_PERIOD }[plan]] *)
Definition subscriptionPeriodOf (env : Collaborators) (p : SubscriptionPlan)
  : option Z :=
  match p with
  | HOBBY => Some (MAX_HOBBY_PERIOD (constants env))
  | PRO => Some (MAX_PRO_PERIOD (constants env))
  | FREE => None
  end.

(** The private method [updateUserSubscription].  [format] is applied to
    [subscription.subscriptionCurrentPeriodEnd!]; the [!] is a remark to
    the type checker only, so a missing date reaches [format] as it is. *)
Definition updateUserSubscription (env : Collaborators) (userId : string)
  (p : SubscriptionPlan) (pf : ApplicationPlatform)
  : Async (ChargeOutcome (option string)) :=
  let subscriptionPeriod := subscriptionPeriodOf env p in
  subscription <-
    await (CallUpdateUserSubscription userId p pf subscriptionPeriod)
      (repoUpdateUserSubscription env userId p pf subscriptionPeriod) ;;
  match subscriptionCurrentPeriodEnd subscription with
  | Some periodEnd =>
      ret {| success := true;
             message := PLAN_UPGRADED;
             subscriptionEnd := Some (format env periodEnd) |}
  | None =>
      text <- lift (formatMissing env) ;;
      ret {| success := true;
             message := PLAN_UPGRADED;
             subscriptionEnd := Some text |}
  end.

(** What a [try] block hands back: a value it returned, or a promise it
    returned without awaiting it.  Such a promise settles outside the
    [try], so its rejection is not seen by the [catch]. *)
Inductive Returned (A : Type) : Type :=
| Value (a : A)
| Promise (p : Async A).

Arguments Value {A} a.
Arguments Promise {A} p.

Definition settle {A : Type} (r : Returned A) : Async A :=
  match r with
  | Value a => ret a
  | Promise p => p
  end.

(** The type [BoostsSubscriptionPlan] of the requested plan is declared in
    [src/typings], which is not among the sources.  The service compares
    the requested plan with a [SubscriptionPlan] and looks it up in a table
    whose answer may be [undefined], so here it ranges over
    [SubscriptionPlan].

    The [try] block ends in [return this.updateUserSubscription(...)]: the
    promise is returned, not awaited. *)
Definition chargeSubscription (env : Collaborators) (userId : string)
  (p : SubscriptionPlan) (pf : ApplicationPlatform)
  : Async (ChargeOutcome (option string)) :=
  found <- await (CallGetById userId) (getById env userId) ;;
  match found with
  | None => ret (failure NO_USER_FOUND None)
  | Some user =>
      let subscription := findSubscription user pf in
      if isInvalidUpgrade p (planOf subscription)
      then ret (failure USER_ALREADY_PAID None)
      else
        userPublicKey <- lift (newPublicKey env (personalWalletPubKey user)) ;;
        balance <- await (CallGetAccountBalance userPublicKey)
                     (getAccountBalance env userPublicKey) ;;
        match truthy balance with
        | None => ret (failure INSUFFICIENT_BALANCE None)
        | Some balance =>
            match truthy (getPlanFee env p) with
            | None => ret (failure INVALID_PLAN None)
            | Some planFee =>
                if balance >=? planFee
                then
                  returned <-
                    try_catch
                      (transaction <-
                         lift (createTransaction env userPublicKey
                                 (planFee - SIGNATURE_FEE)) ;;
                       userKeypair <-
                         lift (getKeypairFromPrivateKey env
                                 (personalWalletPrivKey user)) ;;
                       confirmed <-
                         await (CallCreateAndSend transaction userKeypair)
                           (createAndSendNativeV0Tx env transaction
                              userKeypair) ;;
                       if negb confirmed
                       then ret (Value (failure INTERNAL_ERROR None))
                       else ret (Promise
                                   (updateUserSubscription env (id user) p pf)))
                      (ret (Value (failure INTERNAL_ERROR None))) ;;
                  settle returned
                else
                  _ <- match planOf subscription with
                       | None =>
                           _ <- await
                                  (CallUpdateUserSubscription (id user) FREE
                                     pf None)
                                  (repoUpdateUserSubscription env (id user)
                                     FREE pf None) ;;
                           ret tt
                       | Some _ => ret tt
                       end ;;
                  ret (failure INSUFFICIENT_BALANCE None)
            end
        end
  end.

(** Here [donation] is a whole number of SOL, for which the product and
    the difference below are the exact ones; [Binary64.chargeDonation], after
    this module, takes the amount as the binary64 number it is. *)
Definition chargeDonation (env : Collaborators) (userId : string)
  (donation : Z) : Async (ChargeOutcome unit) :=
  found <- await (CallGetById userId) (getById env userId) ;;
  match found with
  | None => ret (failure NO_USER_FOUND tt)
  | Some user =>
      userPublicKey <- lift (newPublicKey env (personalWalletPubKey user)) ;;
      balance <- await (CallGetAccountBalance userPublicKey)
                   (getAccountBalance env userPublicKey) ;;
      match truthy balance with
      | None => ret (failure INSUFFICIENT_BALANCE tt)
      | Some balance =>
          let donationLamports := donation * LAMPORTS_PER_SOL in
          if balance >=? donationLamports
          then
            try_catch
              (transaction <-
                 lift (createTransaction env userPublicKey
                         (donationLamports - SIGNATURE_FEE)) ;;
               userKeypair <-
                 lift (getKeypairFromPrivateKey env
                         (personalWalletPrivKey user)) ;;
               confirmed <-
                 await (CallCreateAndSend transaction userKeypair)
                   (createAndSendNativeV0Tx env transaction userKeypair) ;;
               if negb confirmed
               then ret (failure INTERNAL_ERROR tt)
               else
                 _ <- await (CallHasDonated userId) (hasDonated env userId) ;;
                 ret {| success := true;
                        message := DONATION_MADE;
                        subscriptionEnd := tt |})
              (ret (failure INTERNAL_ERROR tt))
          else ret (failure INSUFFICIENT_BALANCE tt)
      end
  end.

Definition chargePromotion (env : Collaborators) (userId : string)
  (promotionAmt : Z) (promotionType : PromotionType)
  : Async (ChargeOutcome unit) :=
  found <- await (CallGetById userId) (getById env userId) ;;
  match found with
  | None => ret (failure NO_USER_FOUND tt)
  | Some user =>
      userPublicKey <- lift (newPublicKey env (personalWalletPubKey user)) ;;
      balance <- await (CallGetAccountBalance userPublicKey)
                   (getAccountBalance env userPublicKey) ;;
      match truthy balance with
      | None => ret (failure INSUFFICIENT_BALANCE tt)
      | Some balance =>
          let promotionAmtLamports := promotionAmt * LAMPORTS_PER_SOL in
          if balance >=? promotionAmtLamports
          then
            try_catch
              (transaction <-
                 lift (createTransaction env userPublicKey
                         (promotionAmt - SIGNATURE_FEE)) ;;
               userKeypair <-
                 lift (getKeypairFromPrivateKey env
                         (personalWalletPrivKey user)) ;;
               confirmed <-
                 await (CallCreateAndSend transaction userKeypair)
                   (createAndSendNativeV0Tx env transaction userKeypair) ;;
               if negb confirmed
               then ret (failure INTERNAL_ERROR tt)
               else
                 promMessage <-
                   await (CallBuyPromotion userId promotionType)
                     (buyPromotion env userId promotionType) ;;
                 if String.eqb promMessage
                      "Non-stackable promotion already purchased"
                 then ret (failure USER_ALREADY_PAID tt)
                 else ret {| success := true;
                             message := TRANSACTION_SUCCESS;
                             subscriptionEnd := tt |})
              (ret (failure INTERNAL_ERROR tt))
          else ret (failure INSUFFICIENT_BALANCE tt)
      end
  end.

End PaymentsService.

Import PaymentsService.

(** ** A donation in binary64

    [chargeDonation(userId, donation: number)] takes a number of SOL and
    computes [donation * LAMPORTS_PER_SOL] and [donationLamports -
    SIGNATURE_FEE] in binary64.  Here the amount is a primitive float, whose
    operations are those of IEEE 754 binary64 rounded to nearest even; the
    balance stays a whole number of lamports. *)

Module Binary64.

Import PrimFloat SpecFloat FloatOps.

(** A sign and a magnitude as an integer. *)
Definition signed (negative : bool) (m : positive) : Z :=
  if negative then Z.neg m else Z.pos m.

(** [BigInt(x)]: the integer that a binary64 number is, when it is one;
    [BigInt] throws on a fraction, an infinity and NaN.  A finite binary64
    number is [m * 2 ^ e] for its mantissa [m] and exponent [e]. *)
Definition wholeValue (x : float) : option Z :=
  match Prim2SF x with
  | S754_zero _ => Some 0
  | S754_finite negative m e =>
      if 0 <=? e then Some (signed negative m * 2 ^ e)
      else if signed negative m mod 2 ^ (- e) =? 0
           then Some (signed negative m / 2 ^ (- e))
           else None
  | S754_infinity _ => None
  | S754_nan => None
  end.

(** [b >= x] for a whole number [b] and a binary64 number [x]: the
    comparison of the two numbers, false when [x] is NaN. *)
Definition geNumber (b : Z) (x : float) : bool :=
  match Prim2SF x with
  | S754_zero _ => 0 <=? b
  | S754_finite negative m e =>
      if 0 <=? e then signed negative m * 2 ^ e <=? b
      else signed negative m <=? b * 2 ^ (- e)
  | S754_infinity negative => negative
  | S754_nan => false
  end.

Definition LAMPORTS_PER_SOL : float := 1000000000%float.

Definition SIGNATURE_FEE : float := 5000%float.

(** [createTransaction] with the amount as a number: [SystemProgram.transfer]
    turns it into a [BigInt] before it encodes it. *)
Definition createTransaction (env : Collaborators)
  (userPublicKey : PublicKey) (fee : float)
  : Completion (list TransferInstruction) :=
  match wholeValue fee with
  | Some amount => PaymentsService.createTransaction env userPublicKey amount
  | None => Thrown
  end.

Definition chargeDonation (env : Collaborators) (userId : string)
  (donation : float) : Async (ChargeOutcome unit) :=
  found <- await (CallGetById userId) (getById env userId) ;;
  match found with
  | None => ret (failure NO_USER_FOUND tt)
  | Some user =>
      userPublicKey <- lift (newPublicKey env (personalWalletPubKey user)) ;;
      balance <- await (CallGetAccountBalance userPublicKey)
                   (getAccountBalance env userPublicKey) ;;
      match truthy balance with
      | None => ret (failure INSUFFICIENT_BALANCE tt)
      | Some balance =>
          let donationLamports := PrimFloat.mul donation LAMPORTS_PER_SOL in
          if geNumber balance donationLamports
          then
            try_catch
              (transaction <-
                 lift (createTransaction env userPublicKey
                         (PrimFloat.sub donationLamports SIGNATURE_FEE)) ;;
               userKeypair <-
                 lift (getKeypairFromPrivateKey env
                         (personalWalletPrivKey user)) ;;
               confirmed <-
                 await (CallCreateAndSend transaction userKeypair)
                   (createAndSendNativeV0Tx env transaction userKeypair) ;;
               if negb confirmed
               then ret (failure INTERNAL_ERROR tt)
               else
                 _ <- await (CallHasDonated userId) (hasDonated env userId) ;;
                 ret {| success := true;
                        message := DONATION_MADE;
                        subscriptionEnd := tt |})
              (ret (failure INTERNAL_ERROR tt))
          else ret (failure INSUFFICIENT_BALANCE tt)
      end
  end.


Definition sol_2_5 : float := 2.5%float.

(** And [4.1]. *)
Definition sol_4_1 : float := 0x1.0666666666666p+2%float.

End Binary64.

(** ** Observations on traces *)

Definition isTransfer (e : Event) : bool :=
  match e with
  | CallCreateAndSend _ _ => true
  | _ => false
  end.

Definition isBalanceQuery (e : Event) : bool :=
  match e with
  | CallGetAccountBalance _ => true
  | _ => false
  end.

(** The writes to the entitlement store: a subscription, the donation flag,
    a promotion purchase. *)
Definition isEntitlementWrite (e : Event) : bool :=
  match e with
  | CallUpdateUserSubscription _ _ _ _ => true
  | CallHasDonated _ => true
  | CallBuyPromotion _ _ => true
  | _ => false
  end.

Definition transferCalls (t : Trace) : list Event := filter isTransfer t.

Definition balanceQueries (t : Trace) : list Event := filter isBalanceQuery t.

Definition entitlementWrites (t : Trace) : list Event :=
  filter isEntitlementWrite t.

(** The amounts of the transfers submitted, in order. *)
Definition submittedLamports (t : Trace) : list Z :=
  flat_map
    (fun e =>
       match e with
       | CallCreateAndSend instructions _ => map lamports instructions
       | _ => []
       end) t.

Definition isSuccessMessage (m : PaymentsMessageEnum) : bool :=
  match m with
  | PLAN_UPGRADED | DONATION_MADE | TRANSACTION_SUCCESS => true
  | _ => false
  end.

(** The plan the user holds on a platform; no subscription counts as FREE. *)
Definition currentPlan (user : User) (pf : ApplicationPlatform)
  : SubscriptionPlan :=
  orFree (planOf (findSubscription user pf)).

(** The account of a user, as the entry points build it. *)
Definition accountOf (user : User) : PublicKey :=
  {| base58 := personalWalletPubKey user |}.

(** The instruction that moves [fee] from the user to the operator. *)
Definition transferOf (env : Collaborators) (user : User) (fee : Z)
  : TransferInstruction :=
  {| fromPubkey := accountOf user;
     toPubkey := {| base58 := BETTER_CALL_SOL_PK (constants env) |};
     lamports := fee |}.

Definition keypairOf (user : User) : Keypair :=
  {| secretKey := personalWalletPrivKey user |}.

(** The transfer of [fee] is built, signed, submitted and confirmed. *)
Definition TransferConfirmed (env : Collaborators) (user : User) (fee : Z)
  : Prop :=
  validPublicKey env (BETTER_CALL_SOL_PK (constants env)) = true /\
  transferEncodes env (transferOf env user fee) = true /\
  validSecretKey env (personalWalletPrivKey user) = true /\
  createAndSendNativeV0Tx env [transferOf env user fee] (keypairOf user)
  = Normal true.

(** Building or signing the transfer of [fee] throws, or its submission
    throws, or it is not confirmed. *)
Definition TransferFails (env : Collaborators) (user : User) (fee : Z)
  : Prop :=
  validPublicKey env (BETTER_CALL_SOL_PK (constants env)) = false \/
  transferEncodes env (transferOf env user fee) = false \/
  validSecretKey env (personalWalletPrivKey user) = false \/
  createAndSendNativeV0Tx env [transferOf env user fee] (keypairOf user)
  = Thrown \/
  createAndSendNativeV0Tx env [transferOf env user fee] (keypairOf user)
  = Normal false.



(** The balance the query answered does not cover [fee]; an answer of
    [undefined] covers nothing. *)
Definition below (balance : option Z) (fee : Z) : Prop :=
  match balance with
  | Some b => b < fee
  | None => True
  end.

(** ** A concrete world

    Users are found by identifier; an address or a secret key is malformed
    when it is empty; every account holds [balance]; a submitted transfer
    completes as [sent]; the stores accept writes when [storeUp]; a
    promotion purchase answers [promotionAnswer]. *)

Definition sampleConstants : Constants :=
  {| BETTER_CALL_SOL_PK := "OperatorWallet";
     HOBBY_PLAN_FEE := 500000;
     PRO_PLAN_FEE := 1500000;
     MAX_HOBBY_PERIOD := 30;
     MAX_PRO_PERIOD := 365 |}.

Definition world (users : list User) (balance : Completion (option Z))
  (sent : Completion bool) (storeUp : bool) (promotionAnswer : string)
  : Collaborators :=
  {| constants := sampleConstants;
     getById := fun userId =>
       Normal (find (fun u => String.eqb (id u) userId) users);
     validPublicKey := fun s => negb (String.eqb s "");
     getAccountBalance := fun _ => balance;
     transferEncodes := fun _ => true;
     validSecretKey := fun s => negb (String.eqb s "");
     createAndSendNativeV0Tx := fun _ _ => sent;
     repoUpdateUserSubscription := fun _ p pf period =>
       if storeUp
       then Normal {| platform := pf;
                      plan := p;
                      subscriptionCurrentPeriodEnd :=
                        option_map (Z.add 20000) period |}
       else Thrown;
     hasDonated := fun _ => if storeUp then Normal tt else Thrown;
     buyPromotion := fun _ _ =>
       if storeUp then Normal promotionAnswer else Thrown;
     format := fun day => if day =? 20030 then "11/03/2024" else "other";
     formatMissing := Normal "01/01/1970" |}.

(** The same world with the encoder of [SystemProgram.transfer] as the
    ledger has it: the amount is written as an unsigned integer of 64 bits,
    so a negative amount is not encoded. *)
Definition ledgerWorld (users : list User) (balance : Completion (option Z))
  (sent : Completion bool) (storeUp : bool) (promotionAnswer : string)
  : Collaborators :=
  let w := world users balance sent storeUp promotionAnswer in
  {| constants := constants w;
     getById := getById w;
     validPublicKey := validPublicKey w;
     getAccountBalance := getAccountBalance w;
     transferEncodes := fun instruction =>
       (0 <=? lamports instruction) && (lamports instruction <? 2 ^ 64);
     validSecretKey := validSecretKey w;
     createAndSendNativeV0Tx := createAndSendNativeV0Tx w;
     repoUpdateUserSubscription := repoUpdateUserSubscription w;
     hasDonated := hasDonated w;
     buyPromotion := buyPromotion w;
     format := format w;
     formatMissing := formatMissing w |}.

(** A user with a wallet and no subscription. *)
Definition alice : User :=
  {| id := "1001";
     personalWalletPubKey := "AliceWallet";
     personalWalletPrivKey := "AliceSecret";
     userSubscriptions := [] |}.

(** A user whose stored wallet address is malformed. *)
Definition mallory : User :=
  {| id := "1002";
     personalWalletPubKey := "";
     personalWalletPrivKey := "MallorySecret";
     userSubscriptions := [] |}.

(** A user who holds the PRO plan on the platform BOOSTS. *)
Definition peggy : User :=
  {| id := "1003";
     personalWalletPubKey := "PeggyWallet";
     personalWalletPrivKey := "PeggySecret";
     userSubscriptions :=
       [ {| platform := "BOOSTS";
            plan := PRO;
            subscriptionCurrentPeriodEnd := Some 20100 |} ] |}.

Definition everyone : list User := [alice; mallory; peggy].

(** A trace in which the user lookup comes first and the balance query,
    the transfer and the entitlement write occur at most once each. *)
Definition OneOfEach (userId : string) (t : Trace) : Prop :=
  (exists rest, t = CallGetById userId :: rest) /\
  (List.length (balanceQueries t) <= 1)%nat /\
  (List.length (transferCalls t) <= 1)%nat /\
  (List.length (entitlementWrites t) <= 1)%nat.

(** The codes that report a request turned down before any payment. *)
Definition isRefusal (m : PaymentsMessageEnum) : bool :=
  match m with
  | NO_USER_FOUND | INVALID_PLAN | INSUFFICIENT_BALANCE => true
  | _ => false
  end.

(** The trace of a call that went as far as a confirmed transfer from the
    account of [user], followed by [after]. *)
Definition PaidThen (env : Collaborators) (userId : string) (user : User)
  (fee : Z) (after : list Event) (t : Trace) : Prop :=
  t = CallGetById userId
      :: CallGetAccountBalance (accountOf user)
      :: CallCreateAndSend [transferOf env user fee] (keypairOf user)
      :: after /\
  createAndSendNativeV0Tx env [transferOf env user fee] (keypairOf user)
  = Normal true.

(** ** The user service

    A shallow embedding of [src/services/users/user.service.ts] (class
    [UserService]): who is served a notification, under the daily limit of
    the free plan. *)

Module UserService.

(** [ApplicationPlatform.BOOSTS] *)
Definition BOOSTS : ApplicationPlatform := "BOOSTS".

(** A value of the map [config.freeDailyMessages]; the date is kept as its
    [getTime()]. *)
Record DailyMessages : Type := {
  count : Z;
  maxMessagesNotifiedAt : option Z
}.

(** What is sent: the fixed text ['Your daily limits have been resumed.'],
    or [GeneralMessages.startMessage(user, platform, count)], whose
    rendering is not part of the sources. *)
Inductive Notice : Type :=
| DailyLimitsResumed
| StartMessage (user : User) (pf : ApplicationPlatform) (shown : Z).

(** What the service uses and does not define.  The clock and the Telegram
    service answer differently from one call to the next: their answers are
    indexed by the number of calls made to them so far. *)
Record Services : Type := {
  (** of [../../constants] *)
  MAX_FREE_DAILY_MESSAGES : Z;
  (** of [@solana-bot/core] *)
  MILLISECONDS_IN_AN_HOUR : Z;
  (** [isTimeOutsideIntervalMs(time, interval)] of [@solana-bot/core] *)
  isTimeOutsideIntervalMs : nat -> Z -> Z -> bool;
  (** [new Date()] *)
  newDate : nat -> Z;
  (** [telegramService.sendMessage(Number(user.id), text, options)] *)
  sendMessage : nat -> string -> Notice -> Completion unit
}.

(** The map [config.freeDailyMessages], the number of calls made so far to
    the clock and to the Telegram service, and the messages handed to
    [sendMessage], in order. *)
Record State : Type := {
  freeDailyMessages : string -> option DailyMessages;
  consulted : nat;
  handed : list (string * Notice)
}.

Definition Task (A : Type) : Type := State -> Completion A * State.

Definition pure {A : Type} (a : A) : Task A := fun s => (Normal a, s).

Definition andThen {A B : Type} (m : Task A) (f : A -> Task B) : Task B :=
  fun s =>
    match m s with
    | (Normal a, s') => f a s'
    | (Thrown, s') => (Thrown, s')
    end.

Notation "x <~ m ;; k" := (andThen m (fun x => k))
  (at level 61, m at next level, right associativity).

(** [config.freeDailyMessages.set(userId, dailyMessages)] *)
Definition mapSet (userId : string) (d : DailyMessages) : Task unit :=
  fun s =>
    (Normal tt,
     {| freeDailyMessages := fun k =>
          if String.eqb k userId then Some d else freeDailyMessages s k;
        consulted := consulted s;
        handed := handed s |}).

(** One reading of the clock. *)
Definition clock {A : Type} (read : nat -> A) : Task A :=
  fun s =>
    (Normal (read (consulted s)),
     {| freeDailyMessages := freeDailyMessages s;
        consulted := S (consulted s);
        handed := handed s |}).

(** [await telegramService.sendMessage(...)] *)
Definition send (env : Services) (recipient : string) (n : Notice)
  : Task unit :=
  fun s =>
    (sendMessage env (consulted s) recipient n,
     {| freeDailyMessages := freeDailyMessages s;
        consulted := S (consulted s);
        handed := handed s ++ [(recipient, n)] |}).

Definition isPaidSubscriber (user : User) : bool :=
  existsb
    (fun sub =>
       String.eqb (platform sub) BOOSTS && negb (plan_eqb (plan sub) FREE))
    (userSubscriptions user).

(** [config.freeDailyMessages.get(userId) || { count: 0 }].  The object is
    the one the map holds, or a new one; every function below that changes
    it stores it under the same key at once, so the record is passed on by
    value and each such function returns it as it has become. *)
Definition getDailyMessageData (userId : string) : Task DailyMessages :=
  fun s =>
    (Normal match freeDailyMessages s userId with
            | Some d => d
            | None => {| count := 0; maxMessagesNotifiedAt := None |}
            end,
     s).

Definition shouldResetDailyLimit (env : Services)
  (dailyMessages : DailyMessages) : Task bool :=
  match maxMessagesNotifiedAt dailyMessages with
  | Some notifiedAt =>
      clock (fun now =>
               isTimeOutsideIntervalMs env now notifiedAt
                 (MILLISECONDS_IN_AN_HOUR env * 6))
  | None => pure false
  end.

Definition hasExceededDailyLimit (env : Services)
  (dailyMessages : DailyMessages) : bool :=
  count dailyMessages >=? MAX_FREE_DAILY_MESSAGES env.

Definition incrementDailyMessageCount (userId : string)
  (dailyMessages : DailyMessages) : Task DailyMessages :=
  let dailyMessages :=
    {| count := count dailyMessages + 1;
       maxMessagesNotifiedAt := maxMessagesNotifiedAt dailyMessages |} in
  _ <~ mapSet userId dailyMessages ;;
  pure dailyMessages.

Definition resetDailyLimit (env : Services) (user : User)
  (dailyMessages : DailyMessages) : Task DailyMessages :=
  let dailyMessages := {| count := 0; maxMessagesNotifiedAt := None |} in
  _ <~ mapSet (id user) dailyMessages ;;
  _ <~ send env (id user) DailyLimitsResumed ;;
  pure dailyMessages.

Definition notifyDailyLimitReached (env : Services) (user : User)
  (dailyMessages : DailyMessages) : Task DailyMessages :=
  match maxMessagesNotifiedAt dailyMessages with
  | Some _ => pure dailyMessages
  | None =>
      now <~ clock (newDate env) ;;
      let dailyMessages :=
        {| count := count dailyMessages;
           maxMessagesNotifiedAt := Some now |} in
      _ <~ mapSet (id user) dailyMessages ;;
      _ <~ send env (id user)
             (StartMessage user BOOSTS (count dailyMessages)) ;;
      pure dailyMessages
  end.

(** The body of the loop of [getActiveUsers], over the users that remain,
    with [activeUsers] as filled so far. *)
Fixpoint serve (env : Services) (users : list User) (activeUsers : list User)
  : Task (list User) :=
  match users with
  | [] => pure activeUsers
  | user :: rest =>
      if isPaidSubscriber user
      then serve env rest (activeUsers ++ [user])
      else
        dailyMessages <~ getDailyMessageData (id user) ;;
        reset <~ shouldResetDailyLimit env dailyMessages ;;
        dailyMessages <~
          (if reset then resetDailyLimit env user dailyMessages
           else pure dailyMessages) ;;
        if hasExceededDailyLimit env dailyMessages
        then
          _ <~ notifyDailyLimitReached env user dailyMessages ;;
          serve env rest activeUsers
        else
          _ <~ incrementDailyMessageCount (id user) dailyMessages ;;
          serve env rest (activeUsers ++ [user])
  end.

Definition getActiveUsers (env : Services) (users : list User)
  : Task (list User) :=
  serve env users [].

(** One turn of that loop, taken alone: whether [user] is pushed onto
    [activeUsers].  [serve] is this turn followed by the turns of the
    users that remain (lemma [serve_cons]). *)
Definition serveOne (env : Services) (user : User) : Task bool :=
  if isPaidSubscriber user
  then pure true
  else
    dailyMessages <~ getDailyMessageData (id user) ;;
    reset <~ shouldResetDailyLimit env dailyMessages ;;
    dailyMessages <~
      (if reset then resetDailyLimit env user dailyMessages
       else pure dailyMessages) ;;
    if hasExceededDailyLimit env dailyMessages
    then
      _ <~ notifyDailyLimitReached env user dailyMessages ;;
      pure false
    else
      _ <~ incrementDailyMessageCount (id user) dailyMessages ;;
      pure true.

End UserService.

(** Every counter of the map lies between 0 and the daily limit. *)
Definition WithinLimit (env : UserService.Services) (s : UserService.State)
  : Prop :=
  forall k d,
    UserService.freeDailyMessages s k = Some d ->
    0 <= UserService.count d
    <= UserService.MAX_FREE_DAILY_MESSAGES env.

(** The map of [s'] holds [d] for [userId] and is the map of [s]
    elsewhere. *)
Definition Stores (s' s : UserService.State) (userId : string)
  (d : UserService.DailyMessages) : Prop :=
  UserService.freeDailyMessages s' userId = Some d /\
  forall k,
    String.eqb k userId = false ->
    UserService.freeDailyMessages s' k = UserService.freeDailyMessages s k.

(** What the map answers for a user, a missing entry read as a counter
    of 0 without a notice. *)
Definition dailyMessagesOf (s : UserService.State) (userId : string)
  : UserService.DailyMessages :=
  match UserService.freeDailyMessages s userId with
  | Some d => d
  | None =>
      {| UserService.count := 0; UserService.maxMessagesNotifiedAt := None |}
  end.

(** A world for the user service: a limit of three messages a day, a clock
    that stands at 90,000,000 ms, and a Telegram service that accepts every
    message. *)
Definition quietServices : UserService.Services :=
  {| UserService.MAX_FREE_DAILY_MESSAGES := 3;
     UserService.MILLISECONDS_IN_AN_HOUR := 3600000;
     UserService.isTimeOutsideIntervalMs := fun _ notifiedAt interval =>
       90000000 - notifiedAt >? interval;
     UserService.newDate := fun _ => 90000000;
     UserService.sendMessage := fun _ _ _ => Normal tt |}.

(** The same with a Telegram service that rejects every message. *)
Definition deafServices : UserService.Services :=
  {| UserService.MAX_FREE_DAILY_MESSAGES := 3;
     UserService.MILLISECONDS_IN_AN_HOUR := 3600000;
     UserService.isTimeOutsideIntervalMs := fun _ notifiedAt interval =>
       90000000 - notifiedAt >? interval;
     UserService.newDate := fun _ => 90000000;
     UserService.sendMessage := fun _ _ _ => Thrown |}.

(** No counter yet. *)
Definition noCounters : UserService.State :=
  {| UserService.freeDailyMessages := fun _ => None;
     UserService.consulted := 0;
     UserService.handed := [] |}.

(** The counter of alice is [d]. *)
Definition aliceAt (d : UserService.DailyMessages) : UserService.State :=
  {| UserService.freeDailyMessages := fun k =>
       if String.eqb k "1001" then Some d else None;
     UserService.consulted := 0;
     UserService.handed := [] |}.

(** * Properties *)

(** ** Unfolding the monad *)

Ltac unfold_async :=
  unfold run, chargeSubscription, chargeDonation, chargePromotion,
    updateUserSubscription, settle, bind, try_catch, await, lift, ret,
    createTransaction, getKeypairFromPrivateKey, newPublicKey, failure.

Ltac split_match :=
  match goal with
  | |- context [match ?x with _ => _ end] => destruct x eqn:?
  | H : context [match ?x with _ => _ end] |- _ => destruct x eqn:?
  end.

Ltac by_cases :=
  unfold_async; simpl; intros;
  repeat (split_match; simpl in *; try discriminate);
  repeat match goal with
         | H : (_, _) = (_, _) |- _ => inversion H; clear H; subst
         | H : Normal _ = Normal _ |- _ => injection H as H; try subst
         | H : Some _ = Some _ |- _ => injection H as H; try subst
         end;
  simpl in *.

Lemma success_iff_message {E : Type} (o : ChargeOutcome E) :
  success o = isSuccessMessage (message o) ->
  success o = true <->
  message o = PLAN_UPGRADED \/ message o = DONATION_MADE \/
  message o = TRANSACTION_SUCCESS.
Proof.
  intros ->. destruct (message o); simpl; split; intros H; auto;
    try discriminate;
    destruct H as [H | [H | H]]; discriminate.
Qed.

Lemma chargeSubscription_success env userId p pf o t :
  run (chargeSubscription env userId p pf) = (Normal o, t) ->
  success o = isSuccessMessage (message o).
Proof. by_cases; reflexivity. Qed.

Lemma chargeDonation_success env userId donation o t :
  run (chargeDonation env userId donation) = (Normal o, t) ->
  success o = isSuccessMessage (message o).
Proof. by_cases; reflexivity. Qed.

Lemma chargePromotion_success env userId amount ty o t :
  run (chargePromotion env userId amount ty) = (Normal o, t) ->
  success o = isSuccessMessage (message o).
Proof. by_cases; reflexivity. Qed.

(** ** What a transfer carries *)

Lemma chargeSubscription_lamports env userId p pf fee x :
  truthy (getPlanFee env p) = Some fee ->
  In x (submittedLamports (snd (run (chargeSubscription env userId p pf)))) ->
  x = fee - SIGNATURE_FEE.
Proof.
  intros Hfee. by_cases; try contradiction;
    repeat match goal with
           | H : _ \/ _ |- _ => destruct H
           | H : False |- _ => destruct H
           end; congruence.
Qed.

Lemma chargeDonation_lamports env userId donation x :
  In x (submittedLamports (snd (run (chargeDonation env userId donation)))) ->
  x = donation * LAMPORTS_PER_SOL - SIGNATURE_FEE.
Proof.
  by_cases; try contradiction;
    repeat match goal with
           | H : _ \/ _ |- _ => destruct H
           | H : False |- _ => destruct H
           end; congruence.
Qed.

Lemma chargePromotion_lamports env userId amount ty x :
  In x (submittedLamports (snd (run (chargePromotion env userId amount ty)))) ->
  x = amount - SIGNATURE_FEE.
Proof.
  by_cases; try contradiction;
    repeat match goal with
           | H : _ \/ _ |- _ => destruct H
           | H : False |- _ => destruct H
           end; congruence.
Qed.

(** C1 (the code departs from it).  [chargePromotion] checks the balance
    against [promotionAmt * LAMPORTS_PER_SOL] as [chargeDonation] does, but
    the transfer it submits carries [promotionAmt - SIGNATURE_FEE], the
    amount that was not converted.  For alice, who holds 2 SOL, a promotion
    of 1 SOL submits -4999 lamports where a donation of 1 SOL submits
    999,995,000. *)
Theorem chargePromotion_submits_unconverted_amount :
  let env := world everyone (Normal (Some 2000000000)) (Normal true) true
               "Promotion purchased" in
  submittedLamports (snd (run (chargePromotion env "1001" 1 "TRENDING")))
  = [-4999] /\
  submittedLamports (snd (run (chargeDonation env "1001" 1)))
  = [1 * LAMPORTS_PER_SOL - SIGNATURE_FEE] /\
  1 * LAMPORTS_PER_SOL - SIGNATURE_FEE = 999995000.
Proof. intros env. split; [reflexivity | split; reflexivity]. Qed.

(** ** Rewriting along the hypotheses of a scenario *)

Ltac use_confirmed H :=
  let Hop := fresh "Hop" in
  let Henc := fresh "Henc" in
  let Hkey := fresh "Hkey" in
  let Hsend := fresh "Hsend" in
  destruct H as (Hop & Henc & Hkey & Hsend);
  unfold transferOf, keypairOf, accountOf in *;
  rewrite ?Hop; simpl; rewrite ?Henc; simpl; rewrite ?Hkey; simpl;
  rewrite ?Hsend; simpl.

Lemma geb_true (a b : Z) : b <= a -> (a >=? b) = true.
Proof. intros H. rewrite Z.geb_leb. now apply Z.leb_le. Qed.

Lemma geb_false (a b : Z) : a < b -> (a >=? b) = false.
Proof. intros H. rewrite Z.geb_leb. now apply Z.leb_gt. Qed.

Lemma truthy_some (v : Z) : v <> 0 -> truthy (Some v) = Some v.
Proof.
  intros H. unfold truthy. destruct (v =? 0) eqn:E; [|reflexivity].
  apply Z.eqb_eq in E. contradiction.
Qed.

(** C2 (the code departs from it).  The transfer of a promotion carries
    [promotionAmt - SIGNATURE_FEE], the amount that was not converted (C1).
    For a positive amount below 5000 it is negative; the ledger does not
    encode a negative amount, so building the transfer throws inside the
    [try]: the outcome is INTERNAL_ERROR, no transfer is submitted and the
    repository is not asked, although the balance covers the amount and the
    repository would answer that the non-stackable promotion is already
    purchased. *)
Theorem held_promotion_below_the_fee_is_not_charged
  env userId amount ty user balance :
  getById env userId = Normal (Some user) ->
  validPublicKey env (personalWalletPubKey user) = true ->
  getAccountBalance env (accountOf user) = Normal (Some balance) ->
  0 < amount ->
  amount * LAMPORTS_PER_SOL <= balance ->
  amount < SIGNATURE_FEE ->
  (forall instruction,
      lamports instruction < 0 -> transferEncodes env instruction = false) ->
  buyPromotion env userId ty
  = Normal "Non-stackable promotion already purchased" ->
  run (chargePromotion env userId amount ty)
  = (Normal {| success := false;
               message := INTERNAL_ERROR;
               subscriptionEnd := tt |},
     [CallGetById userId; CallGetAccountBalance (accountOf user)]) /\
  transferCalls (snd (run (chargePromotion env userId amount ty))) = [] /\
  entitlementWrites (snd (run (chargePromotion env userId amount ty))) = [].
Proof.
  intros Huser Hpk Hbal Hpos Hle Hsmall Hencode Hprom.
  assert (Hrun : run (chargePromotion env userId amount ty)
                 = (Normal (failure INTERNAL_ERROR tt),
                    [ CallGetById userId;
                      CallGetAccountBalance (accountOf user) ])).
  { unfold_async. rewrite Huser. cbv beta iota. rewrite Hpk. cbv beta iota.
    unfold accountOf in *. rewrite Hbal. cbv beta iota.
    rewrite truthy_some by (unfold LAMPORTS_PER_SOL in *; lia).
    rewrite geb_true by assumption.
    destruct (validPublicKey env (BETTER_CALL_SOL_PK (constants env)));
      [|reflexivity].
    rewrite Hencode by (simpl; lia). reflexivity. }
  rewrite Hrun. repeat split.
Qed.

Lemma held_promotion_below_the_fee_is_not_charged_witness :
  let env := ledgerWorld everyone (Normal (Some 3000000000)) (Normal true)
               true "Non-stackable promotion already purchased" in
  run (chargePromotion env "1001" 2 "TRENDING")
  = (Normal {| success := false;
               message := INTERNAL_ERROR;
               subscriptionEnd := tt |},
     [CallGetById "1001"; CallGetAccountBalance (accountOf alice)]) /\
  transferCalls (snd (run (chargePromotion env "1001" 2 "TRENDING"))) = [] /\
  entitlementWrites (snd (run (chargePromotion env "1001" 2 "TRENDING")))
  = [].
Proof.
  intros env.
  apply (held_promotion_below_the_fee_is_not_charged env "1001" 2 "TRENDING"
           alice 3000000000).
  - reflexivity.
  - reflexivity.
  - reflexivity.
  - lia.
  - vm_compute. discriminate.
  - unfold SIGNATURE_FEE. lia.
  - intros instruction Hneg. simpl.
    apply andb_false_iff. left. now apply Z.leb_gt.
  - reflexivity.
Defined.

(** ** A transfer that fails *)

Ltac reach Huser := unfold_async; rewrite Huser; cbv beta iota.

Ltac finish_cases :=
  repeat (split_match; simpl in *; try discriminate);
  repeat match goal with
         | H : (_, _) = (_, _) |- _ => inversion H; clear H; subst
         | H : Normal _ = Normal _ |- _ => injection H as H; try subst
         | H : negb ?b = _ |- _ => destruct b; simpl in H; try discriminate
         end;
  simpl; try solve [intuition congruence].

Ltac fails_cases H :=
  unfold TransferFails, transferOf, keypairOf, accountOf in H; finish_cases.

Lemma chargeSubscription_transfer_fails env userId p pf user balance fee :
  getById env userId = Normal (Some user) ->
  isInvalidUpgrade p (planOf (findSubscription user pf)) = false ->
  validPublicKey env (personalWalletPubKey user) = true ->
  getAccountBalance env (accountOf user) = Normal (Some balance) ->
  balance <> 0 ->
  getPlanFee env p = Some fee ->
  fee <> 0 ->
  fee <= balance ->
  TransferFails env user (fee - SIGNATURE_FEE) ->
  fst (run (chargeSubscription env userId p pf))
  = Normal (failure INTERNAL_ERROR None) /\
  entitlementWrites (snd (run (chargeSubscription env userId p pf))) = [].
Proof.
  intros Huser Hvalid Hpk Hbal Hb Hfee Hf Hle Hfail.
  reach Huser. rewrite Hvalid, Hpk. cbv beta iota.
  unfold accountOf in Hbal. rewrite Hbal. cbv beta iota.
  rewrite (truthy_some _ Hb), Hfee, (truthy_some _ Hf), (geb_true _ _ Hle).
  fails_cases Hfail.
Qed.

Lemma chargeDonation_transfer_fails env userId donation user balance :
  getById env userId = Normal (Some user) ->
  validPublicKey env (personalWalletPubKey user) = true ->
  getAccountBalance env (accountOf user) = Normal (Some balance) ->
  balance <> 0 ->
  donation * LAMPORTS_PER_SOL <= balance ->
  TransferFails env user (donation * LAMPORTS_PER_SOL - SIGNATURE_FEE) ->
  fst (run (chargeDonation env userId donation))
  = Normal (failure INTERNAL_ERROR tt) /\
  entitlementWrites (snd (run (chargeDonation env userId donation))) = [].
Proof.
  intros Huser Hpk Hbal Hb Hle Hfail.
  reach Huser. rewrite Hpk. cbv beta iota.
  unfold accountOf in Hbal. rewrite Hbal. cbv beta iota.
  rewrite (truthy_some _ Hb), (geb_true _ _ Hle).
  fails_cases Hfail.
Qed.

Lemma chargePromotion_transfer_fails env userId amount ty user balance :
  getById env userId = Normal (Some user) ->
  validPublicKey env (personalWalletPubKey user) = true ->
  getAccountBalance env (accountOf user) = Normal (Some balance) ->
  balance <> 0 ->
  amount * LAMPORTS_PER_SOL <= balance ->
  TransferFails env user (amount - SIGNATURE_FEE) ->
  fst (run (chargePromotion env userId amount ty))
  = Normal (failure INTERNAL_ERROR tt) /\
  entitlementWrites (snd (run (chargePromotion env userId amount ty))) = [].
Proof.
  intros Huser Hpk Hbal Hb Hle Hfail.
  reach Huser. rewrite Hpk. cbv beta iota.
  unfold accountOf in Hbal. rewrite Hbal. cbv beta iota.
  rewrite (truthy_some _ Hb), (geb_true _ _ Hle).
  fails_cases Hfail.
Qed.

(** C3.  In each of the three entry points, once the balance covers the
    amount, a transfer that is not confirmed, or whose construction, signing
    or submission throws, gives the outcome INTERNAL_ERROR, and the call
    writes nothing to the entitlement store: no subscription, no donation
    flag, no promotion purchase. *)
Theorem failed_transfer_is_internal_error env userId user balance :
  getById env userId = Normal (Some user) ->
  validPublicKey env (personalWalletPubKey user) = true ->
  getAccountBalance env (accountOf user) = Normal (Some balance) ->
  balance <> 0 ->
  (forall p pf fee,
      isInvalidUpgrade p (planOf (findSubscription user pf)) = false ->
      getPlanFee env p = Some fee ->
      fee <> 0 ->
      fee <= balance ->
      TransferFails env user (fee - SIGNATURE_FEE) ->
      fst (run (chargeSubscription env userId p pf))
      = Normal {| success := false;
                  message := INTERNAL_ERROR;
                  subscriptionEnd := None |} /\
      entitlementWrites (snd (run (chargeSubscription env userId p pf)))
      = []) /\
  (forall donation,
      donation * LAMPORTS_PER_SOL <= balance ->
      TransferFails env user (donation * LAMPORTS_PER_SOL - SIGNATURE_FEE) ->
      fst (run (chargeDonation env userId donation))
      = Normal {| success := false;
                  message := INTERNAL_ERROR;
                  subscriptionEnd := tt |} /\
      entitlementWrites (snd (run (chargeDonation env userId donation)))
      = []) /\
  (forall amount ty,
      amount * LAMPORTS_PER_SOL <= balance ->
      TransferFails env user (amount - SIGNATURE_FEE) ->
      fst (run (chargePromotion env userId amount ty))
      = Normal {| success := false;
                  message := INTERNAL_ERROR;
                  subscriptionEnd := tt |} /\
      entitlementWrites (snd (run (chargePromotion env userId amount ty)))
      = []).
Proof.
  intros Huser Hpk Hbal Hb. split; [|split].
  - intros p pf fee ? ? ? ? ?.
    eapply chargeSubscription_transfer_fails; eassumption.
  - intros donation ? ?.
    eapply chargeDonation_transfer_fails; eassumption.
  - intros amount ty ? ?.
    eapply chargePromotion_transfer_fails; eassumption.
Qed.

Lemma failed_transfer_is_internal_error_witness :
  let env := world everyone (Normal (Some 3000000000)) (Normal false) true
               "Promotion purchased" in
  (fst (run (chargeSubscription env "1001" HOBBY "BOOSTS"))
   = Normal {| success := false;
               message := INTERNAL_ERROR;
               subscriptionEnd := None |} /\
   entitlementWrites (snd (run (chargeSubscription env "1001" HOBBY "BOOSTS")))
   = []) /\
  (fst (run (chargeDonation env "1001" 2))
   = Normal {| success := false;
               message := INTERNAL_ERROR;
               subscriptionEnd := tt |} /\
   entitlementWrites (snd (run (chargeDonation env "1001" 2))) = []) /\
  (fst (run (chargePromotion env "1001" 2 "TRENDING"))
   = Normal {| success := false;
               message := INTERNAL_ERROR;
               subscriptionEnd := tt |} /\
   entitlementWrites (snd (run (chargePromotion env "1001" 2 "TRENDING")))
   = []).
Proof.
  intros env.
  destruct (failed_transfer_is_internal_error env "1001" alice 3000000000)
    as (Hsub & Hdon & Hprom).
  - reflexivity.
  - reflexivity.
  - reflexivity.
  - lia.
  - split; [|split].
    + apply (Hsub HOBBY "BOOSTS" 500000).
      * reflexivity.
      * reflexivity.
      * lia.
      * lia.
      * right. right. right. right. reflexivity.
    + apply (Hdon 2).
      * vm_compute. discriminate.
      * right. right. right. right. reflexivity.
    + apply (Hprom 2 "TRENDING").
      * vm_compute. discriminate.
      * right. right. right. right. reflexivity.
Defined.

(** ** The upgrade validity rule *)

Lemma isInvalidUpgrade_true p userPlan :
  SUBSCRIPTION_HIERARCHY p <= SUBSCRIPTION_HIERARCHY (orFree userPlan) ->
  ~ (p = FREE /\ userPlan = None) ->
  isInvalidUpgrade p userPlan = true.
Proof.
  intros Hrank Hnot. destruct userPlan as [up|]; destruct p;
    try destruct up; simpl in *; try reflexivity; try lia.
  exfalso. apply Hnot. split; reflexivity.
Qed.

Lemma planOf_none subscription :
  planOf subscription = None -> subscription = None.
Proof. destruct subscription; [discriminate | reflexivity]. Qed.

(** C4, as the spec states it, fails: alice has no subscription, which
    counts as FREE, and asks for FREE.  The rank of the request is not above
    the rank she holds, yet the request passes the validity rule, the
    balance is queried and the outcome is INVALID_PLAN. *)
Lemma free_request_without_subscription_is_not_rejected :
  let env := world everyone (Normal (Some 1000000)) (Normal true) true
               "Promotion purchased" in
  getById env "1001" = Normal (Some alice) /\
  SUBSCRIPTION_HIERARCHY FREE
  <= SUBSCRIPTION_HIERARCHY (currentPlan alice "BOOSTS") /\
  run (chargeSubscription env "1001" FREE "BOOSTS")
  = (Normal {| success := false;
               message := INVALID_PLAN;
               subscriptionEnd := None |},
     [CallGetById "1001"; CallGetAccountBalance (accountOf alice)]) /\
  balanceQueries (snd (run (chargeSubscription env "1001" FREE "BOOSTS")))
  = [CallGetAccountBalance (accountOf alice)].
Proof.
  intros env. split; [reflexivity|]. split; [vm_compute; discriminate|].
  split; reflexivity.
Qed.

(** C4, amended.  For an existing user, when the rank of the requested
    plan is not above the rank of the plan held (no subscription counting as
    FREE), except for a request of FREE by a user with no subscription on
    the platform, [chargeSubscription] returns USER_ALREADY_PAID after the
    user lookup alone: no balance query and no transfer. *)
Theorem no_upgrade_is_rejected_before_balance env userId p pf user :
  getById env userId = Normal (Some user) ->
  SUBSCRIPTION_HIERARCHY p <= SUBSCRIPTION_HIERARCHY (currentPlan user pf) ->
  ~ (p = FREE /\ findSubscription user pf = None) ->
  run (chargeSubscription env userId p pf)
  = (Normal {| success := false;
               message := USER_ALREADY_PAID;
               subscriptionEnd := None |},
     [CallGetById userId]) /\
  balanceQueries (snd (run (chargeSubscription env userId p pf))) = [] /\
  transferCalls (snd (run (chargeSubscription env userId p pf))) = [].
Proof.
  intros Huser Hrank Hnot.
  assert (Hinv : isInvalidUpgrade p (planOf (findSubscription user pf)) = true).
  { apply isInvalidUpgrade_true; [exact Hrank|].
    intros [Hp Hnone]. apply Hnot. split; [exact Hp|].
    now apply planOf_none. }
  assert (Hrun : run (chargeSubscription env userId p pf)
                 = (Normal (failure USER_ALREADY_PAID None),
                    [CallGetById userId])).
  { reach Huser. rewrite Hinv. reflexivity. }
  rewrite Hrun. repeat split.
Qed.

Lemma no_upgrade_is_rejected_before_balance_witness :
  let env := world everyone (Normal (Some 1000000)) (Normal true) true
               "Promotion purchased" in
  run (chargeSubscription env "1003" HOBBY "BOOSTS")
  = (Normal {| success := false;
               message := USER_ALREADY_PAID;
               subscriptionEnd := None |},
     [CallGetById "1003"]) /\
  balanceQueries (snd (run (chargeSubscription env "1003" HOBBY "BOOSTS")))
  = [] /\
  transferCalls (snd (run (chargeSubscription env "1003" HOBBY "BOOSTS")))
  = [].
Proof.
  intros env.
  apply (no_upgrade_is_rejected_before_balance env "1003" HOBBY "BOOSTS" peggy).
  - reflexivity.
  - vm_compute. discriminate.
  - intros [H _]. discriminate H.
Defined.

(** ** The price lookup comes after the balance query *)

(** C5, as the spec states it, fails: alice asks for FREE, which has no
    price, and passes the validity rule; the balance query answers
    [undefined], and the outcome is INSUFFICIENT_BALANCE, not INVALID_PLAN. *)
Lemma unpriced_plan_with_unknown_balance_is_insufficient_balance :
  let env := world everyone (Normal None) (Normal true) true
               "Promotion purchased" in
  getById env "1001" = Normal (Some alice) /\
  isInvalidUpgrade FREE (planOf (findSubscription alice "BOOSTS")) = false /\
  getPlanFee env FREE = None /\
  run (chargeSubscription env "1001" FREE "BOOSTS")
  = (Normal {| success := false;
               message := INSUFFICIENT_BALANCE;
               subscriptionEnd := None |},
     [CallGetById "1001"; CallGetAccountBalance (accountOf alice)]).
Proof. intros env. repeat split. Qed.

(** C5, amended.  For an existing user whose request passes the validity
    rule and whose plan has no price, the balance is queried first: with a
    usable (present and nonzero) balance the outcome is INVALID_PLAN, and
    with no usable balance it is INSUFFICIENT_BALANCE. *)
Theorem unpriced_plan_after_balance_query env userId p pf user balance :
  getById env userId = Normal (Some user) ->
  isInvalidUpgrade p (planOf (findSubscription user pf)) = false ->
  truthy (getPlanFee env p) = None ->
  validPublicKey env (personalWalletPubKey user) = true ->
  getAccountBalance env (accountOf user) = Normal balance ->
  run (chargeSubscription env userId p pf)
  = (Normal {| success := false;
               message := match truthy balance with
                          | Some _ => INVALID_PLAN
                          | None => INSUFFICIENT_BALANCE
                          end;
               subscriptionEnd := None |},
     [CallGetById userId; CallGetAccountBalance (accountOf user)]).
Proof.
  intros Huser Hvalid Hfee Hpk Hbal.
  reach Huser. rewrite Hvalid, Hpk. cbv beta iota.
  unfold accountOf in *. rewrite Hbal. cbv beta iota.
  destruct (truthy balance); [rewrite Hfee|]; reflexivity.
Qed.

Lemma unpriced_plan_after_balance_query_witness :
  let env := world everyone (Normal (Some 1000000)) (Normal true) true
               "Promotion purchased" in
  run (chargeSubscription env "1001" FREE "BOOSTS")
  = (Normal {| success := false;
               message := INVALID_PLAN;
               subscriptionEnd := None |},
     [CallGetById "1001"; CallGetAccountBalance (accountOf alice)]).
Proof.
  intros env.
  apply (unpriced_plan_after_balance_query env "1001" FREE "BOOSTS" alice
           (Some 1000000)).
  - reflexivity.
  - reflexivity.
  - reflexivity.
  - reflexivity.
  - reflexivity.
Defined.

(** ** Exceptions that leave an entry point *)


(** The write of the upgraded subscription is returned from the [try]
    block without being awaited: when it fails after a confirmed transfer,
    the [catch] does not see it and [chargeSubscription] throws. *)
Lemma failed_upgrade_write_escapes :
  let env := world everyone (Normal (Some 1000000)) (Normal true) false
               "Promotion purchased" in
  run (chargeSubscription env "1001" HOBBY "BOOSTS")
  = (Thrown,
     [ CallGetById "1001";
       CallGetAccountBalance (accountOf alice);
       CallCreateAndSend [transferOf env alice 495000] (keypairOf alice);
       CallUpdateUserSubscription "1001" HOBBY "BOOSTS" (Some 30) ]).
Proof. reflexivity. Qed.

(** In [chargeDonation] the write is awaited inside the [try]: its failure
    is reported as INTERNAL_ERROR. *)
Lemma failed_donation_flag_is_internal_error :
  let env := world everyone (Normal (Some 2000000000)) (Normal true) false
               "Promotion purchased" in
  fst (run (chargeDonation env "1001" 2))
  = Normal {| success := false;
              message := INTERNAL_ERROR;
              subscriptionEnd := tt |}.
Proof. reflexivity. Qed.






(** ** The amount of an upgrade *)

(** C7.  When the balance covers the price of the requested plan, every
    transfer that the upgrade submits carries the price minus the signature
    fee of 5000; when that transfer is confirmed and the subscription is
    written, the outcome is PLAN_UPGRADED.  With a HOBBY price of 500,000
    the amount is 495,000. *)
Theorem upgrade_transfers_price_minus_reserve
  env userId p pf user balance fee :
  getById env userId = Normal (Some user) ->
  isInvalidUpgrade p (planOf (findSubscription user pf)) = false ->
  validPublicKey env (personalWalletPubKey user) = true ->
  getAccountBalance env (accountOf user) = Normal (Some balance) ->
  balance <> 0 ->
  getPlanFee env p = Some fee ->
  fee <> 0 ->
  fee <= balance ->
  (forall x,
      In x (submittedLamports (snd (run (chargeSubscription env userId p pf))))
      -> x = fee - 5000) /\
  (TransferConfirmed env user (fee - SIGNATURE_FEE) ->
   forall subscription periodEnd,
     repoUpdateUserSubscription env (id user) p pf (subscriptionPeriodOf env p)
     = Normal subscription ->
     subscriptionCurrentPeriodEnd subscription = Some periodEnd ->
     run (chargeSubscription env userId p pf)
     = (Normal {| success := true;
                  message := PLAN_UPGRADED;
                  subscriptionEnd := Some (format env periodEnd) |},
        [ CallGetById userId;
          CallGetAccountBalance (accountOf user);
          CallCreateAndSend [transferOf env user (fee - 5000)]
            (keypairOf user);
          CallUpdateUserSubscription (id user) p pf
            (subscriptionPeriodOf env p) ])) /\
  (p = HOBBY -> HOBBY_PLAN_FEE (constants env) = 500000 ->
   fee - 5000 = 495000).
Proof.
  intros Huser Hvalid Hpk Hbal Hb Hfee Hf Hle. split; [|split].
  - intros x Hx.
    apply (chargeSubscription_lamports env userId p pf fee x); [|exact Hx].
    rewrite Hfee. now apply truthy_some.
  - intros Hconf s e Hs He.
    reach Huser. rewrite Hvalid, Hpk. cbv beta iota.
    unfold accountOf in Hbal. rewrite Hbal. cbv beta iota.
    rewrite (truthy_some _ Hb), Hfee, (truthy_some _ Hf), (geb_true _ _ Hle).
    unfold SIGNATURE_FEE in *.
    use_confirmed Hconf. rewrite Hs. simpl. rewrite He. reflexivity.
  - intros -> Hprice. simpl in Hfee. injection Hfee as <-. lia.
Qed.

Lemma upgrade_transfers_price_minus_reserve_witness :
  let env := world everyone (Normal (Some 1000000)) (Normal true) true
               "Promotion purchased" in
  run (chargeSubscription env "1001" HOBBY "BOOSTS")
  = (Normal {| success := true;
               message := PLAN_UPGRADED;
               subscriptionEnd := Some "11/03/2024" |},
     [ CallGetById "1001";
       CallGetAccountBalance (accountOf alice);
       CallCreateAndSend
         [ {| fromPubkey := accountOf alice;
              toPubkey := {| base58 := "OperatorWallet" |};
              lamports := 495000 |} ]
         (keypairOf alice);
       CallUpdateUserSubscription "1001" HOBBY "BOOSTS" (Some 30) ]).
Proof.
  intros env.
  destruct (upgrade_transfers_price_minus_reserve env "1001" HOBBY "BOOSTS"
              alice 1000000 500000) as (_ & Hrun & _).
  - reflexivity.
  - reflexivity.
  - reflexivity.
  - reflexivity.
  - lia.
  - reflexivity.
  - lia.
  - lia.
  - apply (Hrun (conj eq_refl (conj eq_refl (conj eq_refl eq_refl)))
             {| platform := "BOOSTS";
                plan := HOBBY;
                subscriptionCurrentPeriodEnd := Some 20030 |} 20030).
    + reflexivity.
    + reflexivity.
Defined.

(** ** The boundary of a donation *)

Lemma signed_whole negative m k L :
  0 < k ->
  Binary64.signed negative m mod k = 0 ->
  Binary64.signed negative m / k = L ->
  Binary64.signed negative m = L * k.
Proof.
  intros Hk Hmod <-. rewrite Z.mul_comm.
  apply Z.div_exact; [lia | exact Hmod].
Qed.

(** Against a binary64 number that is whole, [>=] is the comparison of
    integers. *)
Lemma geNumber_whole x L b :
  Binary64.wholeValue x = Some L -> Binary64.geNumber b x = (L <=? b).
Proof.
  unfold Binary64.wholeValue, Binary64.geNumber.
  destruct (FloatOps.Prim2SF x) as [z | i | | negative m e];
    try discriminate.
  - intros H. injection H as <-. reflexivity.
  - fold (Binary64.signed negative m).
    destruct (0 <=? e) eqn:He.
    + intros H. injection H as <-. reflexivity.
    + apply Z.leb_gt in He.
      destruct (Binary64.signed negative m mod 2 ^ (- e) =? 0) eqn:Hmod;
        [|discriminate].
      apply Z.eqb_eq in Hmod. intros H. injection H as H.
      assert (Hk : 0 < 2 ^ (- e)) by (apply Z.pow_pos_nonneg; lia).
      rewrite (signed_whole _ _ _ _ Hk Hmod H).
      destruct (L <=? b) eqn:Hle.
      * apply Z.leb_le. apply Z.leb_le in Hle. nia.
      * apply Z.leb_gt. apply Z.leb_gt in Hle. nia.
Qed.

(** On an amount whose product and difference are computed exactly, the
    donation in binary64 is the donation over the integers. *)
Lemma whole_donation_agrees env userId donation sol t :
  Binary64.wholeValue (PrimFloat.mul donation Binary64.LAMPORTS_PER_SOL)
  = Some (sol * LAMPORTS_PER_SOL) ->
  Binary64.wholeValue
    (PrimFloat.sub (PrimFloat.mul donation Binary64.LAMPORTS_PER_SOL)
       Binary64.SIGNATURE_FEE)
  = Some (sol * LAMPORTS_PER_SOL - SIGNATURE_FEE) ->
  Binary64.chargeDonation env userId donation t
  = chargeDonation env userId sol t.
Proof.
  intros Hwhole Hfee.
  unfold Binary64.chargeDonation, Binary64.createTransaction, chargeDonation,
    bind, await, lift, ret.
  destruct (getById env userId) as [[user|]|]; try reflexivity.
  destruct (newPublicKey env (personalWalletPubKey user)) as [pk|];
    try reflexivity.
  destruct (getAccountBalance env pk) as [balance|]; try reflexivity.
  destruct (truthy balance) as [b|]; try reflexivity.
  cbv beta iota zeta.
  rewrite (geNumber_whole _ _ _ Hwhole), Hfee, Z.geb_leb. reflexivity.
Qed.


(** A donation of 4.1 SOL is never made: the amount of the transfer,
    4.1 * 1e9 - 5000, is 4099994999.9999995 in binary64, which is not a
    whole number, so building the transfer throws and the outcome is
    INTERNAL_ERROR whatever the balance. *)
Lemma donation_with_a_fractional_transfer_is_internal_error :
  let env := world everyone (Normal (Some 9000000000)) (Normal true) true
               "Promotion purchased" in
  Binary64.wholeValue
    (PrimFloat.sub
       (PrimFloat.mul Binary64.sol_4_1 Binary64.LAMPORTS_PER_SOL)
       Binary64.SIGNATURE_FEE) = None /\
  run (Binary64.chargeDonation env "1001" Binary64.sol_4_1)
  = (Normal {| success := false;
               message := INTERNAL_ERROR;
               subscriptionEnd := tt |},
     [CallGetById "1001"; CallGetAccountBalance (accountOf alice)]).
Proof. intros env. vm_compute. repeat split. Qed.



(** ** A balance below the price *)

(** C9, as the spec states it, fails: alice has no subscription and holds
    1000 lamports, less than the HOBBY price.  The write of her FREE
    subscription is awaited outside every [try]; when it fails, the call
    throws instead of returning INSUFFICIENT_BALANCE. *)
Lemma failed_free_subscription_write_escapes :
  let env := world everyone (Normal (Some 1000)) (Normal true) false
               "Promotion purchased" in
  getById env "1001" = Normal (Some alice) /\
  findSubscription alice "BOOSTS" = None /\
  isInvalidUpgrade HOBBY (planOf (findSubscription alice "BOOSTS")) = false /\
  getPlanFee env HOBBY = Some 500000 /\
  getAccountBalance env (accountOf alice) = Normal (Some 1000) /\
  repoUpdateUserSubscription env "1001" FREE "BOOSTS" None = Thrown /\
  run (chargeSubscription env "1001" HOBBY "BOOSTS")
  = (Thrown,
     [ CallGetById "1001";
       CallGetAccountBalance (accountOf alice);
       CallUpdateUserSubscription "1001" FREE "BOOSTS" None ]).
Proof. intros env. repeat split. Qed.

(** With an empty account the guard on the balance returns before the
    write of the FREE subscription is reached. *)
Lemma empty_account_writes_no_free_subscription :
  let env := world everyone (Normal (Some 0)) (Normal true) true
               "Promotion purchased" in
  run (chargeSubscription env "1001" HOBBY "BOOSTS")
  = (Normal {| success := false;
               message := INSUFFICIENT_BALANCE;
               subscriptionEnd := None |},
     [CallGetById "1001"; CallGetAccountBalance (accountOf alice)]).
Proof. reflexivity. Qed.

(** C9, amended.  For an existing user who passes the validity rule and
    whose balance is below the price of the plan: whenever the call returns,
    the outcome is INSUFFICIENT_BALANCE; with no usable balance it returns
    so at once; with a nonzero balance and no subscription on the platform
    the write of a FREE subscription is issued, and the call returns when
    that write completes; with a nonzero balance and a subscription it
    returns without a write. *)
Theorem balance_below_price env userId p pf user balance fee :
  getById env userId = Normal (Some user) ->
  isInvalidUpgrade p (planOf (findSubscription user pf)) = false ->
  validPublicKey env (personalWalletPubKey user) = true ->
  getAccountBalance env (accountOf user) = Normal balance ->
  getPlanFee env p = Some fee ->
  fee <> 0 ->
  below balance fee ->
  (forall o,
      fst (run (chargeSubscription env userId p pf)) = Normal o ->
      o = {| success := false;
             message := INSUFFICIENT_BALANCE;
             subscriptionEnd := None |}) /\
  (truthy balance = None ->
   fst (run (chargeSubscription env userId p pf))
   = Normal {| success := false;
               message := INSUFFICIENT_BALANCE;
               subscriptionEnd := None |}) /\
  (forall b,
      truthy balance = Some b ->
      findSubscription user pf = None ->
      snd (run (chargeSubscription env userId p pf))
      = [ CallGetById userId;
          CallGetAccountBalance (accountOf user);
          CallUpdateUserSubscription (id user) FREE pf None ] /\
      (repoUpdateUserSubscription env (id user) FREE pf None <> Thrown ->
       fst (run (chargeSubscription env userId p pf))
       = Normal {| success := false;
                   message := INSUFFICIENT_BALANCE;
                   subscriptionEnd := None |})) /\
  (forall b,
      truthy balance = Some b ->
      findSubscription user pf <> None ->
      run (chargeSubscription env userId p pf)
      = (Normal {| success := false;
                   message := INSUFFICIENT_BALANCE;
                   subscriptionEnd := None |},
         [CallGetById userId; CallGetAccountBalance (accountOf user)])).
Proof.
  intros Huser Hvalid Hpk Hbal Hfee Hf Hlow.
  assert (Hshape :
    run (chargeSubscription env userId p pf)
    = match truthy balance with
      | None =>
          (Normal (failure INSUFFICIENT_BALANCE None),
           [CallGetById userId; CallGetAccountBalance (accountOf user)])
      | Some _ =>
          match findSubscription user pf with
          | None =>
              (match repoUpdateUserSubscription env (id user) FREE pf None with
               | Normal _ => Normal (failure INSUFFICIENT_BALANCE None)
               | Thrown => Thrown
               end,
               [ CallGetById userId;
                 CallGetAccountBalance (accountOf user);
                 CallUpdateUserSubscription (id user) FREE pf None ])
          | Some _ =>
              (Normal (failure INSUFFICIENT_BALANCE None),
               [CallGetById userId; CallGetAccountBalance (accountOf user)])
          end
      end).
  { reach Huser. rewrite Hvalid, Hpk. cbv beta iota.
    unfold accountOf in *. rewrite Hbal. cbv beta iota.
    destruct (truthy balance) as [b|] eqn:Hb; [|reflexivity].
    rewrite Hfee, (truthy_some _ Hf).
    assert (Hlt : b < fee).
    { destruct balance as [v|]; [|discriminate]. simpl in Hlow.
      unfold truthy in Hb. destruct (v =? 0); [discriminate|].
      injection Hb as <-. exact Hlow. }
    rewrite (geb_false _ _ Hlt).
    destruct (findSubscription user pf); simpl; [reflexivity|].
    destruct (repoUpdateUserSubscription env (id user) FREE pf None);
      reflexivity. }
  rewrite Hshape. split; [|split; [|split]].
  - intros o. destruct (truthy balance);
      [destruct (findSubscription user pf);
       [|destruct (repoUpdateUserSubscription env (id user) FREE pf None)]|];
      simpl; intros Ho;
      first [discriminate Ho | injection Ho as <-; reflexivity].
  - intros ->. reflexivity.
  - intros b Hb Hnone. rewrite Hb, Hnone. split; [reflexivity|].
    intros Hwrite. simpl.
    destruct (repoUpdateUserSubscription env (id user) FREE pf None);
      [reflexivity | contradiction].
  - intros b Hb Hsome. rewrite Hb.
    destruct (findSubscription user pf); [reflexivity | contradiction].
Qed.

Lemma balance_below_price_witness :
  let env := world everyone (Normal (Some 1000)) (Normal true) true
               "Promotion purchased" in
  snd (run (chargeSubscription env "1001" HOBBY "BOOSTS"))
  = [ CallGetById "1001";
      CallGetAccountBalance (accountOf alice);
      CallUpdateUserSubscription "1001" FREE "BOOSTS" None ] /\
  fst (run (chargeSubscription env "1001" HOBBY "BOOSTS"))
  = Normal {| success := false;
              message := INSUFFICIENT_BALANCE;
              subscriptionEnd := None |}.
Proof.
  intros env.
  destruct (balance_below_price env "1001" HOBBY "BOOSTS" alice (Some 1000)
              500000) as (_ & _ & Hfree & _).
  - reflexivity.
  - reflexivity.
  - reflexivity.
  - reflexivity.
  - reflexivity.
  - lia.
  - simpl. lia.
  - destruct (Hfree 1000 eq_refl eq_refl) as [Htrace Hout].
    split; [exact Htrace|]. apply Hout. discriminate.
Defined.

(** ** Success and reason codes *)

(** C10.  Whatever outcome [chargeSubscription], [chargeDonation] or
    [chargePromotion] returns, its success flag is true exactly when its
    message is PLAN_UPGRADED, DONATION_MADE or TRANSACTION_SUCCESS; each of
    NO_USER_FOUND, USER_ALREADY_PAID, INVALID_PLAN, INSUFFICIENT_BALANCE and
    INTERNAL_ERROR comes with [success = false]. *)
Theorem success_exactly_on_success_codes env userId :
  (forall p pf o t,
      run (chargeSubscription env userId p pf) = (Normal o, t) ->
      (success o = true <->
       message o = PLAN_UPGRADED \/ message o = DONATION_MADE \/
       message o = TRANSACTION_SUCCESS)) /\
  (forall donation o t,
      run (chargeDonation env userId donation) = (Normal o, t) ->
      (success o = true <->
       message o = PLAN_UPGRADED \/ message o = DONATION_MADE \/
       message o = TRANSACTION_SUCCESS)) /\
  (forall amount ty o t,
      run (chargePromotion env userId amount ty) = (Normal o, t) ->
      (success o = true <->
       message o = PLAN_UPGRADED \/ message o = DONATION_MADE \/
       message o = TRANSACTION_SUCCESS)).
Proof.
  split; [|split]; intros; apply success_iff_message.
  - eapply chargeSubscription_success; eassumption.
  - eapply chargeDonation_success; eassumption.
  - eapply chargePromotion_success; eassumption.
Qed.

Lemma success_exactly_on_success_codes_witness :
  let env := world everyone (Normal (Some 2000000000)) (Normal true) true
               "Promotion purchased" in
  success {| success := true;
             message := DONATION_MADE;
             subscriptionEnd := tt |} = true <->
  message {| success := true;
             message := DONATION_MADE;
             subscriptionEnd := tt |} = PLAN_UPGRADED \/
  message {| success := true;
             message := DONATION_MADE;
             subscriptionEnd := tt |} = DONATION_MADE \/
  message {| success := true;
             message := DONATION_MADE;
             subscriptionEnd := tt |} = TRANSACTION_SUCCESS.
Proof.
  intros env.
  destruct (success_exactly_on_success_codes env "1001") as (_ & Hdon & _).
  apply (Hdon 2 _ [ CallGetById "1001";
                    CallGetAccountBalance (accountOf alice);
                    CallCreateAndSend [transferOf env alice 1999995000]
                      (keypairOf alice);
                    CallHasDonated "1001" ]).
  reflexivity.
Defined.

(** * Further properties of the payments service *)

(** ** An unknown user *)

(** When the repository knows no user of that identifier, each entry point
    returns NO_USER_FOUND after the lookup alone. *)
Theorem unknown_user_is_reported_after_lookup env userId :
  getById env userId = Normal None ->
  (forall p pf,
      run (chargeSubscription env userId p pf)
      = (Normal {| success := false;
                   message := NO_USER_FOUND;
                   subscriptionEnd := None |},
         [CallGetById userId])) /\
  (forall donation,
      run (chargeDonation env userId donation)
      = (Normal {| success := false;
                   message := NO_USER_FOUND;
                   subscriptionEnd := tt |},
         [CallGetById userId])) /\
  (forall amount ty,
      run (chargePromotion env userId amount ty)
      = (Normal {| success := false;
                   message := NO_USER_FOUND;
                   subscriptionEnd := tt |},
         [CallGetById userId])).
Proof.
  intros Hnone. split; [|split]; intros; reach Hnone; reflexivity.
Qed.

Lemma unknown_user_is_reported_after_lookup_witness :
  let env := world everyone (Normal (Some 3000000000)) (Normal true) true
               "Promotion purchased" in
  run (chargeDonation env "4040" 1)
  = (Normal {| success := false;
               message := NO_USER_FOUND;
               subscriptionEnd := tt |},
     [CallGetById "4040"]).
Proof.
  intros env.
  apply (proj1 (proj2 (unknown_user_is_reported_after_lookup env "4040"
                         eq_refl))).
Defined.

(** ** One lookup, one balance query, one transfer, one write *)

Ltac one_of_each :=
  unfold OneOfEach; by_cases;
  (split; [eexists; reflexivity|]); simpl; repeat split; lia.

Lemma chargeSubscription_one_of_each env userId p pf :
  OneOfEach userId (snd (run (chargeSubscription env userId p pf))).
Proof. one_of_each. Qed.

Lemma chargeDonation_one_of_each env userId donation :
  OneOfEach userId (snd (run (chargeDonation env userId donation))).
Proof. one_of_each. Qed.

Lemma chargePromotion_one_of_each env userId amount ty :
  OneOfEach userId (snd (run (chargePromotion env userId amount ty))).
Proof. one_of_each. Qed.

(** Whatever the collaborators answer, a call of an entry point starts with
    the user lookup and then queries the balance at most once, submits at
    most one transfer and writes at most once to the entitlement store. *)
Theorem every_call_is_one_of_each env userId :
  (forall p pf,
      OneOfEach userId (snd (run (chargeSubscription env userId p pf)))) /\
  (forall donation,
      OneOfEach userId (snd (run (chargeDonation env userId donation)))) /\
  (forall amount ty,
      OneOfEach userId (snd (run (chargePromotion env userId amount ty)))).
Proof.
  split; [|split]; intros.
  - apply chargeSubscription_one_of_each.
  - apply chargeDonation_one_of_each.
  - apply chargePromotion_one_of_each.
Qed.

(** ** Refusals move no funds *)

Lemma chargeSubscription_refusal env userId p pf o t :
  run (chargeSubscription env userId p pf) = (Normal o, t) ->
  isRefusal (message o) = true \/ message o = USER_ALREADY_PAID ->
  transferCalls t = [] /\
  forall e, In e (entitlementWrites t) ->
            exists uid, e = CallUpdateUserSubscription uid FREE pf None.
Proof.
  by_cases;
    repeat match goal with
           | H : _ \/ _ |- _ => destruct H
           end; try discriminate; (split; [reflexivity|]);
    simpl; intros e He;
    repeat match goal with
           | H : _ \/ _ |- _ => destruct H
           | H : False |- _ => destruct H
           end; subst; eauto.
Qed.

Lemma chargeDonation_refusal env userId donation o t :
  run (chargeDonation env userId donation) = (Normal o, t) ->
  isRefusal (message o) = true ->
  transferCalls t = [] /\ entitlementWrites t = [].
Proof. by_cases; try discriminate; split; reflexivity. Qed.

Lemma chargePromotion_refusal env userId amount ty o t :
  run (chargePromotion env userId amount ty) = (Normal o, t) ->
  isRefusal (message o) = true ->
  transferCalls t = [] /\ entitlementWrites t = [].
Proof. by_cases; try discriminate; split; reflexivity. Qed.

(** An outcome of NO_USER_FOUND, INVALID_PLAN or INSUFFICIENT_BALANCE, and
    from [chargeSubscription] also USER_ALREADY_PAID, means that no transfer
    was submitted.  A donation or a promotion then wrote nothing; an upgrade
    wrote at most the FREE subscription of the platform. *)
Theorem refusals_submit_no_transfer env userId :
  (forall p pf o t,
      run (chargeSubscription env userId p pf) = (Normal o, t) ->
      isRefusal (message o) = true \/ message o = USER_ALREADY_PAID ->
      transferCalls t = [] /\
      forall e, In e (entitlementWrites t) ->
                exists uid, e = CallUpdateUserSubscription uid FREE pf None) /\
  (forall donation o t,
      run (chargeDonation env userId donation) = (Normal o, t) ->
      isRefusal (message o) = true ->
      transferCalls t = [] /\ entitlementWrites t = []) /\
  (forall amount ty o t,
      run (chargePromotion env userId amount ty) = (Normal o, t) ->
      isRefusal (message o) = true ->
      transferCalls t = [] /\ entitlementWrites t = []).
Proof.
  split; [|split]; intros.
  - eapply chargeSubscription_refusal; eassumption.
  - eapply chargeDonation_refusal; eassumption.
  - eapply chargePromotion_refusal; eassumption.
Qed.

Lemma refusals_submit_no_transfer_witness :
  let env := world everyone (Normal (Some 1000)) (Normal true) true
               "Promotion purchased" in
  transferCalls
    [ CallGetById "1001";
      CallGetAccountBalance (accountOf alice);
      CallUpdateUserSubscription "1001" FREE "BOOSTS" None ] = [] /\
  forall e,
    In e (entitlementWrites
            [ CallGetById "1001";
              CallGetAccountBalance (accountOf alice);
              CallUpdateUserSubscription "1001" FREE "BOOSTS" None ]) ->
    exists uid, e = CallUpdateUserSubscription uid FREE "BOOSTS" None.
Proof.
  intros env.
  apply (proj1 (refusals_submit_no_transfer env "1001") HOBBY "BOOSTS"
           {| success := false;
              message := INSUFFICIENT_BALANCE;
              subscriptionEnd := None |}).
  - reflexivity.
  - left. reflexivity.
Defined.

(** ** A write follows a confirmed transfer *)

Ltac after_cases :=
  repeat match goal with
         | H : negb ?b = _ |- _ => destruct b; simpl in H; try discriminate
         | H : _ \/ _ |- _ => destruct H
         | H : False |- _ => destruct H
         end; subst.

Lemma truthy_inv (n : option Z) (v : Z) :
  truthy n = Some v -> n = Some v /\ v <> 0.
Proof.
  destruct n as [w|]; simpl; [|discriminate].
  destruct (w =? 0) eqn:E; [discriminate|].
  intros H. injection H as <-. split; [reflexivity|].
  now apply Z.eqb_neq.
Qed.

Lemma chargeDonation_write env userId donation e :
  In e (entitlementWrites (snd (run (chargeDonation env userId donation)))) ->
  exists user,
    getById env userId = Normal (Some user) /\
    PaidThen env userId user (donation * LAMPORTS_PER_SOL - SIGNATURE_FEE)
      [CallHasDonated userId]
      (snd (run (chargeDonation env userId donation))).
Proof.
  unfold PaidThen, transferOf, keypairOf, accountOf.
  by_cases; after_cases;
    eexists; (split; [reflexivity|]); split; try reflexivity; assumption.
Qed.

Lemma chargePromotion_write env userId amount ty e :
  In e (entitlementWrites (snd (run (chargePromotion env userId amount ty))))
  ->
  exists user,
    getById env userId = Normal (Some user) /\
    PaidThen env userId user (amount - SIGNATURE_FEE)
      [CallBuyPromotion userId ty]
      (snd (run (chargePromotion env userId amount ty))).
Proof.
  unfold PaidThen, transferOf, keypairOf, accountOf.
  by_cases; after_cases;
    eexists; (split; [reflexivity|]); split; try reflexivity; assumption.
Qed.

Lemma chargeSubscription_write env userId p pf e :
  In e (entitlementWrites (snd (run (chargeSubscription env userId p pf)))) ->
  exists user,
    getById env userId = Normal (Some user) /\
    ((findSubscription user pf = None /\
      snd (run (chargeSubscription env userId p pf))
      = [ CallGetById userId;
          CallGetAccountBalance (accountOf user);
          CallUpdateUserSubscription (id user) FREE pf None ]) \/
     (exists fee,
         getPlanFee env p = Some fee /\
         PaidThen env userId user (fee - SIGNATURE_FEE)
           [CallUpdateUserSubscription (id user) p pf
              (subscriptionPeriodOf env p)]
           (snd (run (chargeSubscription env userId p pf))))).
Proof.
  unfold PaidThen, transferOf, keypairOf, accountOf.
  by_cases; after_cases.
  all: eexists; (split; [reflexivity|]).
  all: try (right;
            match goal with
            | H : truthy (getPlanFee _ _) = Some ?z |- _ =>
                exists z; apply truthy_inv in H; destruct H;
                repeat split; assumption
            end).
  all: left; split; [apply planOf_none; assumption | reflexivity].
Qed.

(** Whatever the collaborators answer, a donation flag or a promotion
    purchase is written only after the transfer of that call was confirmed;
    a subscription is written either so, as the requested plan with its
    period, or as the FREE subscription of a user who has none on the
    platform, in a call that submits no transfer. *)
Theorem writes_follow_a_confirmed_transfer env userId :
  (forall p pf e,
      In e (entitlementWrites (snd (run (chargeSubscription env userId p pf))))
      ->
      exists user,
        getById env userId = Normal (Some user) /\
        ((findSubscription user pf = None /\
          snd (run (chargeSubscription env userId p pf))
          = [ CallGetById userId;
              CallGetAccountBalance (accountOf user);
              CallUpdateUserSubscription (id user) FREE pf None ]) \/
         (exists fee,
             getPlanFee env p = Some fee /\
             PaidThen env userId user (fee - SIGNATURE_FEE)
               [CallUpdateUserSubscription (id user) p pf
                  (subscriptionPeriodOf env p)]
               (snd (run (chargeSubscription env userId p pf)))))) /\
  (forall donation e,
      In e (entitlementWrites (snd (run (chargeDonation env userId donation))))
      ->
      exists user,
        getById env userId = Normal (Some user) /\
        PaidThen env userId user (donation * LAMPORTS_PER_SOL - SIGNATURE_FEE)
          [CallHasDonated userId]
          (snd (run (chargeDonation env userId donation)))) /\
  (forall amount ty e,
      In e (entitlementWrites
              (snd (run (chargePromotion env userId amount ty)))) ->
      exists user,
        getById env userId = Normal (Some user) /\
        PaidThen env userId user (amount - SIGNATURE_FEE)
          [CallBuyPromotion userId ty]
          (snd (run (chargePromotion env userId amount ty)))).
Proof.
  split; [|split]; intros.
  - eapply chargeSubscription_write; eassumption.
  - eapply chargeDonation_write; eassumption.
  - eapply chargePromotion_write; eassumption.
Qed.

Lemma writes_follow_a_confirmed_transfer_witness :
  let env := world everyone (Normal (Some 2000000000)) (Normal true) false
               "Promotion purchased" in
  exists user,
    getById env "1001" = Normal (Some user) /\
    PaidThen env "1001" user (2 * LAMPORTS_PER_SOL - SIGNATURE_FEE)
      [CallHasDonated "1001"]
      (snd (run (chargeDonation env "1001" 2))).
Proof.
  intros env.
  apply (proj1 (proj2 (writes_follow_a_confirmed_transfer env "1001")) 2
           (CallHasDonated "1001")).
  simpl. left. reflexivity.
Defined.

(** ** Where a transfer goes, and how much it leaves *)

Lemma chargeSubscription_route env userId p pf i k :
  In (CallCreateAndSend i k) (snd (run (chargeSubscription env userId p pf)))
  ->
  exists user fee,
    getById env userId = Normal (Some user) /\
    i = [transferOf env user fee] /\ k = keypairOf user.
Proof.
  unfold transferOf, keypairOf, accountOf.
  by_cases; after_cases; try discriminate;
    match goal with
    | H : CallCreateAndSend _ _ = CallCreateAndSend _ _ |- _ =>
        injection H as <- <-
    end;
    eexists; eexists; (split; [reflexivity | split; reflexivity]).
Qed.

Lemma chargeDonation_route env userId donation i k :
  In (CallCreateAndSend i k) (snd (run (chargeDonation env userId donation)))
  ->
  exists user fee,
    getById env userId = Normal (Some user) /\
    i = [transferOf env user fee] /\ k = keypairOf user.
Proof.
  unfold transferOf, keypairOf, accountOf.
  by_cases; after_cases; try discriminate;
    match goal with
    | H : CallCreateAndSend _ _ = CallCreateAndSend _ _ |- _ =>
        injection H as <- <-
    end;
    eexists; eexists; (split; [reflexivity | split; reflexivity]).
Qed.

Lemma chargePromotion_route env userId amount ty i k :
  In (CallCreateAndSend i k)
    (snd (run (chargePromotion env userId amount ty))) ->
  exists user fee,
    getById env userId = Normal (Some user) /\
    i = [transferOf env user fee] /\ k = keypairOf user.
Proof.
  unfold transferOf, keypairOf, accountOf.
  by_cases; after_cases; try discriminate;
    match goal with
    | H : CallCreateAndSend _ _ = CallCreateAndSend _ _ |- _ =>
        injection H as <- <-
    end;
    eexists; eexists; (split; [reflexivity | split; reflexivity]).
Qed.

(** Every transfer an entry point submits is a single instruction from the
    stored wallet of the user who was looked up to the operator account
    [BETTER_CALL_SOL_PK], signed with the stored key of that user. *)
Theorem transfers_go_from_the_user_to_the_operator env userId :
  (forall p pf i k,
      In (CallCreateAndSend i k)
        (snd (run (chargeSubscription env userId p pf))) ->
      exists user fee,
        getById env userId = Normal (Some user) /\
        i = [ {| fromPubkey := {| base58 := personalWalletPubKey user |};
                 toPubkey :=
                   {| base58 := BETTER_CALL_SOL_PK (constants env) |};
                 lamports := fee |} ] /\
        k = {| secretKey := personalWalletPrivKey user |}) /\
  (forall donation i k,
      In (CallCreateAndSend i k)
        (snd (run (chargeDonation env userId donation))) ->
      exists user fee,
        getById env userId = Normal (Some user) /\
        i = [ {| fromPubkey := {| base58 := personalWalletPubKey user |};
                 toPubkey :=
                   {| base58 := BETTER_CALL_SOL_PK (constants env) |};
                 lamports := fee |} ] /\
        k = {| secretKey := personalWalletPrivKey user |}) /\
  (forall amount ty i k,
      In (CallCreateAndSend i k)
        (snd (run (chargePromotion env userId amount ty))) ->
      exists user fee,
        getById env userId = Normal (Some user) /\
        i = [ {| fromPubkey := {| base58 := personalWalletPubKey user |};
                 toPubkey :=
                   {| base58 := BETTER_CALL_SOL_PK (constants env) |};
                 lamports := fee |} ] /\
        k = {| secretKey := personalWalletPrivKey user |}).
Proof.
  split; [|split]; intros.
  - eapply chargeSubscription_route; eassumption.
  - eapply chargeDonation_route; eassumption.
  - eapply chargePromotion_route; eassumption.
Qed.

Lemma transfers_go_from_the_user_to_the_operator_witness :
  let env := world everyone (Normal (Some 2000000000)) (Normal false) true
               "Promotion purchased" in
  exists user fee,
    getById env "1001" = Normal (Some user) /\
    [transferOf env alice 1999995000]
    = [ {| fromPubkey := {| base58 := personalWalletPubKey user |};
           toPubkey := {| base58 := BETTER_CALL_SOL_PK (constants env) |};
           lamports := fee |} ] /\
    keypairOf alice = {| secretKey := personalWalletPrivKey user |}.
Proof.
  intros env.
  apply (proj1 (proj2 (transfers_go_from_the_user_to_the_operator env "1001"))
           2).
  simpl. right. right. left. reflexivity.
Defined.

Ltac numbers :=
  repeat match goal with
         | H : truthy _ = Some _ |- _ =>
             apply truthy_inv in H; destruct H; try subst
         | H : (_ >=? _) = true |- _ => apply Z.geb_le in H
         | H : Some _ = Some _ |- _ =>
             let E := fresh "E" in injection H as E; try subst
         | H : Normal _ = Normal _ |- _ =>
             let E := fresh "E" in injection H as E; try subst
         end.

(** ** When a payment succeeds *)

Arguments Binary64.wholeValue : simpl never.
Arguments Binary64.geNumber : simpl never.

Lemma chargeDonation_made_iff env userId donation :
  fst (run (Binary64.chargeDonation env userId donation))
  = Normal {| success := true;
              message := DONATION_MADE;
              subscriptionEnd := tt |} <->
  exists user balance amount,
    getById env userId = Normal (Some user) /\
    validPublicKey env (personalWalletPubKey user) = true /\
    getAccountBalance env (accountOf user) = Normal (Some balance) /\
    balance <> 0 /\
    Binary64.geNumber balance
      (PrimFloat.mul donation Binary64.LAMPORTS_PER_SOL) = true /\
    Binary64.wholeValue
      (PrimFloat.sub (PrimFloat.mul donation Binary64.LAMPORTS_PER_SOL)
         Binary64.SIGNATURE_FEE) = Some amount /\
    TransferConfirmed env user amount /\
    hasDonated env userId <> Thrown.
Proof.
  unfold Binary64.chargeDonation, Binary64.createTransaction. split.
  - unfold TransferConfirmed, transferOf, keypairOf, accountOf.
    by_cases; after_cases; try discriminate; numbers.
    do 3 eexists; repeat split; try eassumption; congruence.
  - intros (user & balance & amount & Huser & Hpk & Hbal & Hb & Hge & Hfee
            & Hconf & Hflag).
    reach Huser. rewrite Hpk. cbv beta iota.
    unfold accountOf in Hbal. rewrite Hbal. cbv beta iota.
    rewrite (truthy_some _ Hb). cbv beta iota zeta. rewrite Hge, Hfee.
    use_confirmed Hconf.
    destruct (hasDonated env userId); [reflexivity | contradiction].
Qed.

Lemma chargePromotion_success_iff env userId amount ty :
  fst (run (chargePromotion env userId amount ty))
  = Normal {| success := true;
              message := TRANSACTION_SUCCESS;
              subscriptionEnd := tt |} <->
  exists user balance answer,
    getById env userId = Normal (Some user) /\
    validPublicKey env (personalWalletPubKey user) = true /\
    getAccountBalance env (accountOf user) = Normal (Some balance) /\
    balance <> 0 /\
    amount * LAMPORTS_PER_SOL <= balance /\
    TransferConfirmed env user (amount - SIGNATURE_FEE) /\
    buyPromotion env userId ty = Normal answer /\
    answer <> "Non-stackable promotion already purchased".
Proof.
  split.
  - unfold TransferConfirmed, transferOf, keypairOf, accountOf.
    by_cases; after_cases; try discriminate; numbers.
    eexists; eexists; eexists; repeat split; try eassumption.
    now apply String.eqb_neq.
  - intros (user & balance & answer & Huser & Hpk & Hbal & Hb & Hle & Hconf
            & Hprom & Hans).
    reach Huser. rewrite Hpk. cbv beta iota.
    unfold accountOf in Hbal. rewrite Hbal. cbv beta iota.
    rewrite (truthy_some _ Hb), (geb_true _ _ Hle).
    use_confirmed Hconf. rewrite Hprom. simpl.
    apply String.eqb_neq in Hans. rewrite Hans. reflexivity.
Qed.

(** A donation returns DONATION_MADE, and a promotion TRANSACTION_SUCCESS,
    exactly when the user exists with a wallet address that parses, the
    balance query answers a nonzero balance that is not below the amount in
    lamports, the amount of the transfer is a whole number and the transfer
    is built, signed, submitted and confirmed, and the write that follows
    completes (for a promotion: with an answer other than 'Non-stackable
    promotion already purchased').  The donation is taken in binary64: its
    amount in lamports is the rounded product and the amount of the transfer
    the rounded difference. *)
Theorem payment_succeeds_iff env userId :
  (forall donation,
      fst (run (Binary64.chargeDonation env userId donation))
      = Normal {| success := true;
                  message := DONATION_MADE;
                  subscriptionEnd := tt |} <->
      exists user balance amount,
        getById env userId = Normal (Some user) /\
        validPublicKey env (personalWalletPubKey user) = true /\
        getAccountBalance env (accountOf user) = Normal (Some balance) /\
        balance <> 0 /\
        Binary64.geNumber balance
          (PrimFloat.mul donation Binary64.LAMPORTS_PER_SOL) = true /\
        Binary64.wholeValue
          (PrimFloat.sub (PrimFloat.mul donation Binary64.LAMPORTS_PER_SOL)
             Binary64.SIGNATURE_FEE) = Some amount /\
        TransferConfirmed env user amount /\
        hasDonated env userId <> Thrown) /\
  (forall amount ty,
      fst (run (chargePromotion env userId amount ty))
      = Normal {| success := true;
                  message := TRANSACTION_SUCCESS;
                  subscriptionEnd := tt |} <->
      exists user balance answer,
        getById env userId = Normal (Some user) /\
        validPublicKey env (personalWalletPubKey user) = true /\
        getAccountBalance env (accountOf user) = Normal (Some balance) /\
        balance <> 0 /\
        amount * LAMPORTS_PER_SOL <= balance /\
        TransferConfirmed env user (amount - SIGNATURE_FEE) /\
        buyPromotion env userId ty = Normal answer /\
        answer <> "Non-stackable promotion already purchased").
Proof.
  split; intros.
  - apply chargeDonation_made_iff.
  - apply chargePromotion_success_iff.
Qed.

Lemma payment_succeeds_iff_witness :
  (let env := ledgerWorld everyone (Normal (Some 4100000000)) (Normal true)
                true "Promotion purchased" in
   fst (run (Binary64.chargeDonation env "1001" Binary64.sol_2_5))
   = Normal {| success := true;
               message := DONATION_MADE;
               subscriptionEnd := tt |}) /\
  (let env := ledgerWorld everyone (Normal (Some 6000000000000))
                (Normal true) true "Promotion purchased" in
   fst (run (chargePromotion env "1001" 6000 "TRENDING"))
   = Normal {| success := true;
               message := TRANSACTION_SUCCESS;
               subscriptionEnd := tt |}).
Proof.
  split; intros env.
  - apply (proj2 (proj1 (payment_succeeds_iff env "1001")
                    Binary64.sol_2_5)).
    exists alice, 4100000000, 2499995000.
    repeat split; try reflexivity; discriminate.
  - apply (proj2 (proj2 (payment_succeeds_iff env "1001") 6000 "TRENDING")).
    exists alice, 6000000000000, "Promotion purchased".
    repeat split; try reflexivity; discriminate.
Defined.

(** ** When an upgrade succeeds *)

Lemma isInvalidUpgrade_false_strict p userPlan :
  isInvalidUpgrade p userPlan = false ->
  p <> FREE ->
  SUBSCRIPTION_HIERARCHY (orFree userPlan) < SUBSCRIPTION_HIERARCHY p.
Proof.
  destruct userPlan as [up|]; destruct p; try destruct up; simpl;
    intros H Hp; try discriminate; try lia; contradiction.
Qed.

Lemma getPlanFee_priced env p fee :
  getPlanFee env p = Some fee -> p = HOBBY \/ p = PRO.
Proof. destruct p; simpl; intros H; auto; discriminate. Qed.

Lemma chargeSubscription_upgraded_iff env userId p pf o :
  fst (run (chargeSubscription env userId p pf)) = Normal o /\
  success o = true <->
  exists user balance fee subscription text,
    getById env userId = Normal (Some user) /\
    isInvalidUpgrade p (planOf (findSubscription user pf)) = false /\
    validPublicKey env (personalWalletPubKey user) = true /\
    getAccountBalance env (accountOf user) = Normal (Some balance) /\
    balance <> 0 /\
    getPlanFee env p = Some fee /\
    fee <> 0 /\
    fee <= balance /\
    TransferConfirmed env user (fee - SIGNATURE_FEE) /\
    repoUpdateUserSubscription env (id user) p pf (subscriptionPeriodOf env p)
    = Normal subscription /\
    match subscriptionCurrentPeriodEnd subscription with
    | Some periodEnd => Normal (format env periodEnd)
    | None => formatMissing env
    end = Normal text /\
    o = {| success := true;
           message := PLAN_UPGRADED;
           subscriptionEnd := Some text |}.
Proof.
  split.
  - unfold TransferConfirmed, transferOf, keypairOf, accountOf.
    intros [Hrun Hok]. revert Hrun Hok.
    by_cases; after_cases; try discriminate; numbers.
    all: do 5 eexists; repeat split; try eassumption;
      match goal with
      | H : subscriptionCurrentPeriodEnd _ = _ |- _ => rewrite H
      end; first [reflexivity | eassumption].
  - intros (user & balance & fee & sub & text & Huser & Hvalid & Hpk & Hbal
            & Hb & Hfee & Hf & Hle & Hconf & Hs & Htext & ->).
    split; [|reflexivity].
    reach Huser. rewrite Hvalid, Hpk. cbv beta iota.
    unfold accountOf in Hbal. rewrite Hbal. cbv beta iota.
    rewrite (truthy_some _ Hb), Hfee, (truthy_some _ Hf), (geb_true _ _ Hle).
    use_confirmed Hconf. rewrite Hs. simpl.
    destruct (subscriptionCurrentPeriodEnd sub); simpl.
    + injection Htext as <-. reflexivity.
    + rewrite Htext. reflexivity.
Qed.

(** [chargeSubscription] returns a successful outcome exactly when the user
    exists with a wallet address that parses, the request passes the
    validity rule, the balance query answers a nonzero balance that covers
    the nonzero price of the plan, the transfer of the price minus the
    signature fee is confirmed, the subscription is written and [format]
    returns a text for its period end (for a missing period end, when
    [format] does not throw on it); the outcome is then PLAN_UPGRADED with
    that text. *)
Theorem upgrade_succeeds_iff env userId p pf o :
  fst (run (chargeSubscription env userId p pf)) = Normal o /\
  success o = true <->
  exists user balance fee subscription text,
    getById env userId = Normal (Some user) /\
    isInvalidUpgrade p (planOf (findSubscription user pf)) = false /\
    validPublicKey env (personalWalletPubKey user) = true /\
    getAccountBalance env (accountOf user) = Normal (Some balance) /\
    balance <> 0 /\
    getPlanFee env p = Some fee /\
    fee <> 0 /\
    fee <= balance /\
    TransferConfirmed env user (fee - SIGNATURE_FEE) /\
    repoUpdateUserSubscription env (id user) p pf (subscriptionPeriodOf env p)
    = Normal subscription /\
    match subscriptionCurrentPeriodEnd subscription with
    | Some periodEnd => Normal (format env periodEnd)
    | None => formatMissing env
    end = Normal text /\
    o = {| success := true;
           message := PLAN_UPGRADED;
           subscriptionEnd := Some text |}.
Proof. apply chargeSubscription_upgraded_iff. Qed.

Lemma upgrade_succeeds_iff_witness :
  let env := world everyone (Normal (Some 1000000)) (Normal true) true
               "Promotion purchased" in
  fst (run (chargeSubscription env "1001" HOBBY "BOOSTS"))
  = Normal {| success := true;
              message := PLAN_UPGRADED;
              subscriptionEnd := Some "11/03/2024" |} /\
  success {| success := true;
             message := PLAN_UPGRADED;
             subscriptionEnd := Some "11/03/2024" |} = true.
Proof.
  intros env.
  apply (proj2 (upgrade_succeeds_iff env "1001" HOBBY "BOOSTS" _)).
  exists alice, 1000000, 500000,
    {| platform := "BOOSTS";
       plan := HOBBY;
       subscriptionCurrentPeriodEnd := Some 20030 |}, "11/03/2024".
  repeat split; try reflexivity; try discriminate.
Defined.

(** A successful upgrade is a strict one: the requested plan is HOBBY or
    PRO, its rank is above the rank of the plan the user held on the
    platform (no subscription counting as FREE), and the subscription is
    written for the user, the platform and the plan requested, with the
    period of that plan. *)
Theorem upgrade_is_strict env userId p pf o t :
  run (chargeSubscription env userId p pf) = (Normal o, t) ->
  success o = true ->
  exists user,
    getById env userId = Normal (Some user) /\
    (p = HOBBY \/ p = PRO) /\
    SUBSCRIPTION_HIERARCHY (currentPlan user pf) < SUBSCRIPTION_HIERARCHY p /\
    entitlementWrites t
    = [CallUpdateUserSubscription (id user) p pf
         (subscriptionPeriodOf env p)].
Proof.
  intros Hrun Hok.
  destruct (proj1 (chargeSubscription_upgraded_iff env userId p pf o))
    as (user & balance & fee & s & text & Huser & Hvalid & Hpk & Hbal & Hb
        & Hfee & Hf & Hle & Hconf & Hs & Htext & ->).
  { rewrite Hrun. split; [reflexivity | exact Hok]. }
  exists user. split; [exact Huser|].
  pose proof (getPlanFee_priced _ _ _ Hfee) as Hp. split; [exact Hp|].
  split.
  - apply isInvalidUpgrade_false_strict; [exact Hvalid|].
    destruct Hp as [-> | ->]; discriminate.
  - replace t with (snd (run (chargeSubscription env userId p pf)))
      by (rewrite Hrun; reflexivity).
    reach Huser. rewrite Hvalid, Hpk. cbv beta iota.
    unfold accountOf in Hbal. rewrite Hbal. cbv beta iota.
    rewrite (truthy_some _ Hb), Hfee, (truthy_some _ Hf), (geb_true _ _ Hle).
    use_confirmed Hconf. rewrite Hs. simpl.
    destruct (subscriptionCurrentPeriodEnd s); simpl; [reflexivity|].
    destruct (formatMissing env); reflexivity.
Qed.

Lemma upgrade_is_strict_witness :
  let env := world everyone (Normal (Some 1000000)) (Normal true) true
               "Promotion purchased" in
  exists user,
    getById env "1001" = Normal (Some user) /\
    (HOBBY = HOBBY \/ HOBBY = PRO) /\
    SUBSCRIPTION_HIERARCHY (currentPlan user "BOOSTS")
    < SUBSCRIPTION_HIERARCHY HOBBY /\
    entitlementWrites
      [ CallGetById "1001";
        CallGetAccountBalance (accountOf alice);
        CallCreateAndSend [transferOf env alice 495000] (keypairOf alice);
        CallUpdateUserSubscription "1001" HOBBY "BOOSTS" (Some 30) ]
    = [CallUpdateUserSubscription (id user) HOBBY "BOOSTS"
         (subscriptionPeriodOf env HOBBY)].
Proof.
  intros env.
  apply (upgrade_is_strict env "1001" HOBBY "BOOSTS"
           {| success := true;
              message := PLAN_UPGRADED;
              subscriptionEnd := Some "11/03/2024" |}).
  - reflexivity.
  - reflexivity.
Defined.

(** ** The validity rule, read as ranks *)

(** A request passes the validity rule exactly when the rank of the
    requested plan is above the rank of the plan held (no subscription
    counting as FREE), or when FREE is requested for a user who has no
    subscription. *)
Theorem valid_upgrade_iff p userPlan :
  isInvalidUpgrade p userPlan = false <->
  SUBSCRIPTION_HIERARCHY (orFree userPlan) < SUBSCRIPTION_HIERARCHY p \/
  (p = FREE /\ userPlan = None).
Proof.
  destruct userPlan as [up|]; destruct p; try destruct up; simpl; split;
    intros H; try reflexivity; try discriminate; try (left; lia);
    try (right; split; reflexivity);
    destruct H as [H | [H1 H2]]; try lia; discriminate.
Qed.

(** ** A transfer that is confirmed and a write that is not made *)

Lemma chargePromotion_already_paid_iff env userId amount ty :
  fst (run (chargePromotion env userId amount ty))
  = Normal {| success := false;
              message := USER_ALREADY_PAID;
              subscriptionEnd := tt |} <->
  exists user balance,
    getById env userId = Normal (Some user) /\
    validPublicKey env (personalWalletPubKey user) = true /\
    getAccountBalance env (accountOf user) = Normal (Some balance) /\
    balance <> 0 /\
    amount * LAMPORTS_PER_SOL <= balance /\
    TransferConfirmed env user (amount - SIGNATURE_FEE) /\
    buyPromotion env userId ty
    = Normal "Non-stackable promotion already purchased".
Proof.
  split.
  - unfold TransferConfirmed, transferOf, keypairOf, accountOf.
    by_cases; after_cases; try discriminate; numbers.
    eexists; eexists; repeat split; try eassumption.
    match goal with
    | H : String.eqb _ _ = true |- _ => apply String.eqb_eq in H; now subst
    end.
  - intros (user & balance & Huser & Hpk & Hbal & Hb & Hle & Hconf & Hprom).
    reach Huser. rewrite Hpk. cbv beta iota.
    unfold accountOf in Hbal. rewrite Hbal. cbv beta iota.
    rewrite (truthy_some _ Hb), (geb_true _ _ Hle).
    use_confirmed Hconf. rewrite Hprom. reflexivity.
Qed.

(** [chargePromotion] returns USER_ALREADY_PAID exactly when the balance
    covered the amount, the transfer was built, signed, submitted and
    confirmed, and the repository then answered 'Non-stackable promotion
    already purchased': the code is never returned without a confirmed
    transfer. *)
Theorem promotion_already_paid_iff env userId amount ty :
  fst (run (chargePromotion env userId amount ty))
  = Normal {| success := false;
              message := USER_ALREADY_PAID;
              subscriptionEnd := tt |} <->
  exists user balance,
    getById env userId = Normal (Some user) /\
    validPublicKey env (personalWalletPubKey user) = true /\
    getAccountBalance env (accountOf user) = Normal (Some balance) /\
    balance <> 0 /\
    amount * LAMPORTS_PER_SOL <= balance /\
    TransferConfirmed env user (amount - SIGNATURE_FEE) /\
    buyPromotion env userId ty
    = Normal "Non-stackable promotion already purchased".
Proof. apply chargePromotion_already_paid_iff. Qed.

Lemma promotion_already_paid_iff_witness :
  let env := world everyone (Normal (Some 3000000000)) (Normal true) true
               "Non-stackable promotion already purchased" in
  exists user balance,
    getById env "1001" = Normal (Some user) /\
    validPublicKey env (personalWalletPubKey user) = true /\
    getAccountBalance env (accountOf user) = Normal (Some balance) /\
    balance <> 0 /\
    2 * LAMPORTS_PER_SOL <= balance /\
    TransferConfirmed env user (2 - SIGNATURE_FEE) /\
    buyPromotion env "1001" "TRENDING"
    = Normal "Non-stackable promotion already purchased".
Proof.
  intros env.
  apply (proj1 (promotion_already_paid_iff env "1001" 2 "TRENDING")).
  reflexivity.
Defined.

(** When the transfer is confirmed and the write that follows it fails,
    the transfer has been submitted all the same: a donation and a promotion
    report INTERNAL_ERROR, and an upgrade, whose write is returned without
    being awaited, throws. *)
Theorem failed_write_after_a_confirmed_transfer env userId user balance :
  getById env userId = Normal (Some user) ->
  validPublicKey env (personalWalletPubKey user) = true ->
  getAccountBalance env (accountOf user) = Normal (Some balance) ->
  balance <> 0 ->
  (forall donation,
      donation * LAMPORTS_PER_SOL <= balance ->
      TransferConfirmed env user
        (donation * LAMPORTS_PER_SOL - SIGNATURE_FEE) ->
      hasDonated env userId = Thrown ->
      run (chargeDonation env userId donation)
      = (Normal {| success := false;
                   message := INTERNAL_ERROR;
                   subscriptionEnd := tt |},
         [ CallGetById userId;
           CallGetAccountBalance (accountOf user);
           CallCreateAndSend
             [transferOf env user
                (donation * LAMPORTS_PER_SOL - SIGNATURE_FEE)]
             (keypairOf user);
           CallHasDonated userId ])) /\
  (forall amount ty,
      amount * LAMPORTS_PER_SOL <= balance ->
      TransferConfirmed env user (amount - SIGNATURE_FEE) ->
      buyPromotion env userId ty = Thrown ->
      run (chargePromotion env userId amount ty)
      = (Normal {| success := false;
                   message := INTERNAL_ERROR;
                   subscriptionEnd := tt |},
         [ CallGetById userId;
           CallGetAccountBalance (accountOf user);
           CallCreateAndSend [transferOf env user (amount - SIGNATURE_FEE)]
             (keypairOf user);
           CallBuyPromotion userId ty ])) /\
  (forall p pf fee,
      isInvalidUpgrade p (planOf (findSubscription user pf)) = false ->
      getPlanFee env p = Some fee ->
      fee <> 0 ->
      fee <= balance ->
      TransferConfirmed env user (fee - SIGNATURE_FEE) ->
      repoUpdateUserSubscription env (id user) p pf
        (subscriptionPeriodOf env p) = Thrown ->
      run (chargeSubscription env userId p pf)
      = (Thrown,
         [ CallGetById userId;
           CallGetAccountBalance (accountOf user);
           CallCreateAndSend [transferOf env user (fee - SIGNATURE_FEE)]
             (keypairOf user);
           CallUpdateUserSubscription (id user) p pf
             (subscriptionPeriodOf env p) ])).
Proof.
  intros Huser Hpk Hbal Hb. unfold accountOf in Hbal. split; [|split].
  - intros donation Hle Hconf Hflag.
    reach Huser. rewrite Hpk. cbv beta iota. rewrite Hbal. cbv beta iota.
    rewrite (truthy_some _ Hb), (geb_true _ _ Hle).
    use_confirmed Hconf. rewrite Hflag. reflexivity.
  - intros amount ty Hle Hconf Hprom.
    reach Huser. rewrite Hpk. cbv beta iota. rewrite Hbal. cbv beta iota.
    rewrite (truthy_some _ Hb), (geb_true _ _ Hle).
    use_confirmed Hconf. rewrite Hprom. reflexivity.
  - intros p pf fee Hvalid Hfee Hf Hle Hconf Hwrite.
    reach Huser. rewrite Hvalid, Hpk. cbv beta iota. rewrite Hbal.
    cbv beta iota.
    rewrite (truthy_some _ Hb), Hfee, (truthy_some _ Hf), (geb_true _ _ Hle).
    use_confirmed Hconf. rewrite Hwrite. reflexivity.
Qed.

Lemma failed_write_after_a_confirmed_transfer_witness :
  let env := world everyone (Normal (Some 2000000000)) (Normal true) false
               "Promotion purchased" in
  run (chargeDonation env "1001" 2)
  = (Normal {| success := false;
               message := INTERNAL_ERROR;
               subscriptionEnd := tt |},
     [ CallGetById "1001";
       CallGetAccountBalance (accountOf alice);
       CallCreateAndSend
         [transferOf env alice (2 * LAMPORTS_PER_SOL - SIGNATURE_FEE)]
         (keypairOf alice);
       CallHasDonated "1001" ]) /\
  run (chargeSubscription env "1001" HOBBY "BOOSTS")
  = (Thrown,
     [ CallGetById "1001";
       CallGetAccountBalance (accountOf alice);
       CallCreateAndSend [transferOf env alice (500000 - SIGNATURE_FEE)]
         (keypairOf alice);
       CallUpdateUserSubscription "1001" HOBBY "BOOSTS"
         (subscriptionPeriodOf env HOBBY) ]).
Proof.
  intros env.
  destruct (failed_write_after_a_confirmed_transfer env "1001" alice
              2000000000 eq_refl eq_refl eq_refl) as (Hdon & _ & Hsub).
  - lia.
  - split.
    + apply (Hdon 2).
      * vm_compute. discriminate.
      * repeat split.
      * reflexivity.
    + apply (Hsub HOBBY "BOOSTS" 500000).
      * reflexivity.
      * reflexivity.
      * lia.
      * lia.
      * repeat split.
      * reflexivity.
Defined.

(** * Properties of the user service *)

(** ** Paid subscribers and the plan an upgrade sees *)

Lemma existsb_no_platform (subs : list Subscription) :
  filter (fun sub => String.eqb (platform sub) UserService.BOOSTS) subs = [] ->
  existsb
    (fun sub =>
       String.eqb (platform sub) UserService.BOOSTS
       && negb (plan_eqb (plan sub) FREE)) subs = false.
Proof.
  induction subs as [|a subs IH]; simpl; [reflexivity|].
  destruct (String.eqb (platform a) UserService.BOOSTS); simpl;
    [discriminate | exact IH].
Qed.

(** [isPaidSubscriber] looks at every subscription of the user, the
    upgrade at the first one of the platform.  A user whose plan on BOOSTS,
    as [chargeSubscription] reads it, is not FREE is a paid subscriber; when
    the user has at most one subscription on BOOSTS the two agree. *)
Theorem paid_subscriber_and_current_plan user :
  (currentPlan user UserService.BOOSTS <> FREE ->
   UserService.isPaidSubscriber user = true) /\
  ((List.length
      (filter (fun sub => String.eqb (platform sub) UserService.BOOSTS)
         (userSubscriptions user)) <= 1)%nat ->
   UserService.isPaidSubscriber user
   = negb (plan_eqb (currentPlan user UserService.BOOSTS) FREE)).
Proof.
  unfold currentPlan, findSubscription, UserService.isPaidSubscriber, planOf.
  destruct user as [uid pk sk subs]. simpl. split.
  - induction subs as [|a subs IH]; simpl; [congruence|].
    destruct (String.eqb (platform a) UserService.BOOSTS); simpl.
    + intros H. destruct (plan a); simpl; try reflexivity. congruence.
    + exact IH.
  - induction subs as [|a subs IH]; simpl; [reflexivity|].
    destruct (String.eqb (platform a) UserService.BOOSTS) eqn:E; simpl.
    + intros Hlen. rewrite existsb_no_platform.
      * now rewrite orb_false_r.
      * destruct (filter _ subs); [reflexivity | simpl in Hlen; lia].
    + exact IH.
Qed.

Lemma paid_subscriber_and_current_plan_witness :
  UserService.isPaidSubscriber peggy = true /\
  UserService.isPaidSubscriber alice
  = negb (plan_eqb (currentPlan alice UserService.BOOSTS) FREE).
Proof.
  split.
  - apply (proj1 (paid_subscriber_and_current_plan peggy)). discriminate.
  - apply (proj2 (paid_subscriber_and_current_plan alice)). simpl. lia.
Defined.

(** ** The loop of [getActiveUsers] *)

Import UserService.

Ltac unfold_task :=
  unfold getActiveUsers, andThen, pure, getDailyMessageData,
    shouldResetDailyLimit, resetDailyLimit, notifyDailyLimitReached,
    incrementDailyMessageCount, hasExceededDailyLimit, mapSet, clock, send.

Ltac task_cases :=
  repeat (split_match; simpl in *; try discriminate);
  repeat match goal with
         | H : (_, _) = (_, _) |- _ => inversion H; clear H; subst
         end.

Lemma serve_cons env user rest activeUsers s :
  serve env (user :: rest) activeUsers s
  = (served <~ serveOne env user ;;
     serve env rest (if served then activeUsers ++ [user] else activeUsers))
      s.
Proof.
  simpl. unfold serveOne. destruct (isPaidSubscriber user); [reflexivity|].
  unfold_task. simpl. task_cases; reflexivity.
Qed.

Lemma serve_accumulates env users :
  forall activeUsers s,
    serve env users activeUsers s
    = match serve env users [] s with
      | (Normal served, s') => (Normal (activeUsers ++ served), s')
      | (Thrown, s') => (Thrown, s')
      end.
Proof.
  induction users as [|user rest IH]; intros acc s.
  - simpl. unfold pure. now rewrite app_nil_r.
  - rewrite !serve_cons. unfold andThen.
    destruct (serveOne env user s) as [[served|] s1]; [|reflexivity].
    rewrite (IH (if served then acc ++ [user] else acc)).
    rewrite (IH (if served then [] ++ [user] else [])).
    destruct (serve env rest [] s1) as [[more|] s2]; [|reflexivity].
    destruct served; simpl; [now rewrite <- app_assoc | reflexivity].
Qed.

Lemma serve_app env us :
  forall vs activeUsers s,
    serve env (us ++ vs) activeUsers s
    = (served <~ serve env us activeUsers ;; serve env vs served) s.
Proof.
  induction us as [|user rest IH]; intros vs acc s.
  - reflexivity.
  - rewrite <- app_comm_cons. unfold andThen at 1.
    rewrite !serve_cons. unfold andThen at 1 2.
    destruct (serveOne env user s) as [[served|] s1]; [|reflexivity].
    apply IH.
Qed.

(** Serving a list of users in one call comes to serving a first part of
    it and then, from the state so reached, the rest: the users served are
    those of the first call followed by those of the second, and a call
    that throws on the first part does not look at the rest. *)
Theorem getActiveUsers_app env us vs s :
  getActiveUsers env (us ++ vs) s
  = match getActiveUsers env us s with
    | (Normal first, s1) =>
        match getActiveUsers env vs s1 with
        | (Normal second, s2) => (Normal (first ++ second), s2)
        | (Thrown, s2) => (Thrown, s2)
        end
    | (Thrown, s1) => (Thrown, s1)
    end.
Proof.
  unfold getActiveUsers. rewrite serve_app. unfold andThen.
  destruct (serve env us [] s) as [[first|] s1]; [|reflexivity].
  apply serve_accumulates.
Qed.

Lemma getActiveUsers_one env user s :
  getActiveUsers env [user] s
  = match serveOne env user s with
    | (Normal served, s') => (Normal (if served then [user] else []), s')
    | (Thrown, s') => (Thrown, s')
    end.
Proof.
  unfold getActiveUsers. rewrite serve_cons. unfold andThen.
  destruct (serveOne env user s) as [[[|]|] s']; reflexivity.
Qed.

(** ** Who is served *)

Lemma serveOne_paid env user s :
  isPaidSubscriber user = true -> serveOne env user s = (Normal true, s).
Proof. intros H. unfold serveOne. now rewrite H. Qed.

Lemma serve_members env users :
  forall s served s',
    serve env users [] s = (Normal served, s') ->
    (forall u, In u served -> In u users) /\
    (List.length served <= List.length users)%nat /\
    (forall u, In u users -> isPaidSubscriber u = true -> In u served).
Proof.
  induction users as [|user rest IH]; intros s served s' H.
  - inversion H; subst. split; [intros u Hu; exact Hu|].
    split; [apply Nat.le_refl | intros u Hu; contradiction].
  - rewrite serve_cons in H. unfold andThen in H.
    destruct (serveOne env user s) as [[b|] s1] eqn:Hone; [|discriminate].
    rewrite serve_accumulates in H.
    destruct (serve env rest [] s1) as [[more|] s2] eqn:Hrest;
      [|discriminate].
    destruct (IH _ _ _ Hrest) as (Hin & Hlen & Hpaid).
    inversion H; subst. split; [|split].
    + intros u Hu. apply in_app_or in Hu. destruct Hu as [Hu | Hu].
      * destruct b; [|contradiction]. simpl in Hu. destruct Hu as [<- | []].
        now left.
      * right. now apply Hin.
    + rewrite length_app. destruct b; simpl; lia.
    + intros u [<- | Hu] Hp.
      * rewrite (serveOne_paid env _ s Hp) in Hone.
        inversion Hone; subst. apply in_or_app. left. now left.
      * apply in_or_app. right. now apply Hpaid.
Qed.

(** When [getActiveUsers] returns, the users it returns are users of the
    list it was given, no more of them than the list has, and every paid
    subscriber of that list is among them. *)
Theorem active_users_are_listed_and_include_the_paid env users s active s' :
  getActiveUsers env users s = (Normal active, s') ->
  (forall u, In u active -> In u users) /\
  (List.length active <= List.length users)%nat /\
  (forall u, In u users -> isPaidSubscriber u = true -> In u active).
Proof. apply serve_members. Qed.

Lemma active_users_are_listed_and_include_the_paid_witness :
  (forall u, In u [alice; peggy] -> In u [alice; peggy]) /\
  (List.length [alice; peggy] <= List.length [alice; peggy])%nat /\
  (forall u, In u [alice; peggy] -> isPaidSubscriber u = true ->
             In u [alice; peggy]).
Proof.
  apply (active_users_are_listed_and_include_the_paid quietServices
           [alice; peggy] noCounters [alice; peggy]
           {| freeDailyMessages := fun k =>
                if String.eqb k "1001"
                then Some {| count := 1; maxMessagesNotifiedAt := None |}
                else None;
              consulted := 0;
              handed := [] |}).
  reflexivity.
Defined.

Lemma serve_paid_only env users :
  forall s,
    forallb isPaidSubscriber users = true ->
    serve env users [] s = (Normal users, s).
Proof.
  induction users as [|user rest IH]; intros s H; [reflexivity|].
  simpl in H. apply andb_prop in H. destruct H as [Hp Hrest].
  rewrite serve_cons. unfold andThen. rewrite (serveOne_paid env _ s Hp).
  rewrite serve_accumulates, (IH s Hrest). reflexivity.
Qed.

(** A list made of paid subscribers only is returned as it is: no counter
    is read or written, the clock is not read and no message is sent. *)
Theorem paid_subscribers_are_served_untouched env users s :
  forallb isPaidSubscriber users = true ->
  getActiveUsers env users s = (Normal users, s).
Proof. apply serve_paid_only. Qed.

Lemma paid_subscribers_are_served_untouched_witness :
  getActiveUsers deafServices [peggy; peggy] noCounters
  = (Normal [peggy; peggy], noCounters).
Proof.
  apply (paid_subscribers_are_served_untouched deafServices [peggy; peggy]
           noCounters).
  reflexivity.
Defined.

(** ** The counters stay within the limit *)

Lemma geb_false_lt (a b : Z) : (a >=? b) = false -> a < b.
Proof. rewrite Z.geb_leb. apply Z.leb_gt. Qed.

Ltac limit_cases :=
  repeat match goal with
         | H : (_ >=? _) = false |- _ => apply geb_false_lt in H
         | H : (_ >=? _) = true |- _ => apply Z.geb_le in H
         | H : Some _ = Some _ |- _ =>
             let E := fresh "E" in injection H as E; try subst
         | H : (if ?c then _ else _) = Some _ |- _ => destruct c eqn:?
         end.

(** Case analysis on the innermost scrutinees of the goal, one at a
    time. *)
Ltac task_split :=
  repeat match goal with
         | |- context [match ?x with _ => _ end] =>
             lazymatch x with
             | context [match _ with _ => _ end] => fail
             | _ => destruct x eqn:?; simpl
             end
         end.

Ltac reduce_task :=
  cbv beta iota zeta delta
    [getActiveUsers andThen pure getDailyMessageData shouldResetDailyLimit
     resetDailyLimit notifyDailyLimitReached incrementDailyMessageCount
     hasExceededDailyLimit mapSet clock send];
  simpl.

Lemma serveOne_within_limit env user s r s' :
  0 <= MAX_FREE_DAILY_MESSAGES env ->
  WithinLimit env s ->
  serveOne env user s = (r, s') ->
  WithinLimit env s'.
Proof.
  intros Hmax Hs. unfold serveOne, WithinLimit in *.
  destruct (isPaidSubscriber user).
  - intros H. inversion H; subst. exact Hs.
  - reduce_task. task_split.
    all: intros Heq; inversion Heq; subst; clear Heq; intros k d0 Hk;
      simpl in *; try discriminate; limit_cases; simpl in *;
      repeat match goal with
             | H : freeDailyMessages _ _ = Some _ |- _ =>
                 apply Hs in H; simpl in H
             end; lia.
Qed.

Lemma serve_within_limit env users :
  forall acc s r s',
    0 <= MAX_FREE_DAILY_MESSAGES env ->
    WithinLimit env s ->
    serve env users acc s = (r, s') ->
    WithinLimit env s'.
Proof.
  induction users as [|user rest IH]; intros acc s r s' Hmax Hs H.
  - inversion H; subst. exact Hs.
  - rewrite serve_cons in H. unfold andThen in H.
    destruct (serveOne env user s) as [[b|] s1] eqn:Hone.
    + eapply IH; [exact Hmax | | exact H].
      eapply serveOne_within_limit; eassumption.
    + inversion H; subst. eapply serveOne_within_limit; eassumption.
Qed.

(** With a nonnegative daily limit, if every counter of the map lies
    between 0 and the limit before a call of [getActiveUsers], so does every
    counter after it, whether the call returns or throws. *)
Theorem counters_stay_within_the_limit env users s r s' :
  0 <= MAX_FREE_DAILY_MESSAGES env ->
  WithinLimit env s ->
  getActiveUsers env users s = (r, s') ->
  WithinLimit env s'.
Proof. apply serve_within_limit. Qed.

Lemma counters_stay_within_the_limit_witness :
  WithinLimit quietServices
    (aliceAt {| count := 1; maxMessagesNotifiedAt := None |}).
Proof.
  apply (counters_stay_within_the_limit quietServices [alice] noCounters
           (Normal [alice])).
  - simpl. lia.
  - intros k d H. discriminate H.
  - reflexivity.
Defined.

(** ** Who is sent a message *)

Lemma serveOne_handed env user s r s' :
  serveOne env user s = (r, s') ->
  exists new,
    handed s' = handed s ++ new /\
    (consulted s <= consulted s')%nat /\
    forall recipient n,
      In (recipient, n) new ->
      recipient = id user /\ isPaidSubscriber user = false.
Proof.
  unfold serveOne. destruct (isPaidSubscriber user).
  - intros H. inversion H; subst. exists []. rewrite app_nil_r.
    split; [reflexivity|]. split; [lia|]. intros ? ? [].
  - reduce_task. task_split.
    all: intros Heq; inversion Heq; subst; clear Heq;
      simpl; rewrite <- ?app_assoc;
      (eexists; split; [first [reflexivity | symmetry; apply app_nil_r]|]);
      (split; [lia|]); simpl; intros recipient n Hin;
      repeat match goal with
             | H : _ \/ _ |- _ => destruct H
             | H : False |- _ => destruct H
             | H : (_, _) = (_, _) |- _ => inversion H; clear H; subst
             end; split; reflexivity.
Qed.

Lemma serve_handed env users :
  forall acc s r s',
    serve env users acc s = (r, s') ->
    exists new,
      handed s' = handed s ++ new /\
      forall recipient n,
        In (recipient, n) new ->
        exists u,
          In u users /\ id u = recipient /\ isPaidSubscriber u = false.
Proof.
  induction users as [|user rest IH]; intros acc s r s' H.
  - inversion H; subst. exists []. rewrite app_nil_r.
    split; [reflexivity | intros ? ? []].
  - rewrite serve_cons in H. unfold andThen in H.
    destruct (serveOne env user s) as [[b|] s1] eqn:Hone.
    + destruct (serveOne_handed _ _ _ _ _ Hone) as (n1 & H1 & _ & Hn1).
      destruct (IH _ _ _ _ H) as (n2 & H2 & Hn2).
      exists (n1 ++ n2). rewrite H2, H1, app_assoc. split; [reflexivity|].
      intros recipient n Hin. apply in_app_or in Hin.
      destruct Hin as [Hin | Hin].
      * destruct (Hn1 _ _ Hin) as [-> Hfree].
        exists user. split; [now left | split; [reflexivity | exact Hfree]].
      * destruct (Hn2 _ _ Hin) as (u & Hu & Hid & Hfree).
        exists u. split; [now right | split; assumption].
    + inversion H; subst.
      destruct (serveOne_handed _ _ _ _ _ Hone) as (n1 & H1 & _ & Hn1).
      exists n1. split; [exact H1|].
      intros recipient n Hin. destruct (Hn1 _ _ Hin) as [-> Hfree].
      exists user. split; [now left | split; [reflexivity | exact Hfree]].
Qed.

(** A call of [getActiveUsers] only adds to the messages handed to the
    Telegram service, and every message it adds is addressed to a user of
    the list who is not a paid subscriber, whether the call returns or
    throws. *)
Theorem messages_go_to_free_users_of_the_list env users s r s' :
  getActiveUsers env users s = (r, s') ->
  exists new,
    handed s' = handed s ++ new /\
    forall recipient n,
      In (recipient, n) new ->
      exists u,
        In u users /\ id u = recipient /\ isPaidSubscriber u = false.
Proof. apply serve_handed. Qed.

Lemma messages_go_to_free_users_of_the_list_witness :
  exists new,
    [("1001", StartMessage alice BOOSTS 3)] = [] ++ new /\
    forall recipient n,
      In (recipient, n) new ->
      exists u,
        In u [peggy; alice] /\ id u = recipient /\
        isPaidSubscriber u = false.
Proof.
  apply (messages_go_to_free_users_of_the_list quietServices [peggy; alice]
           (aliceAt {| count := 3; maxMessagesNotifiedAt := None |})
           (Normal [peggy])
           {| freeDailyMessages := fun k =>
                if String.eqb k "1001"
                then Some {| count := 3;
                             maxMessagesNotifiedAt := Some 90000000 |}
                else if String.eqb k "1001"
                     then Some {| count := 3;
                                  maxMessagesNotifiedAt := None |}
                     else None;
              consulted := 2;
              handed := [("1001", StartMessage alice BOOSTS 3)] |}).
  reflexivity.
Defined.

(** ** A free user, turn by turn *)

Ltac stores :=
  unfold Stores; simpl; rewrite ?String.eqb_refl;
  (split; [reflexivity|]); intros k Hk; rewrite ?Hk; reflexivity.

(** A user who is not a paid subscriber, has not been told that the limit
    is reached and whose counter is below the limit is served: the counter
    goes up by one, the clock is not read and no message is sent.  A user
    without an entry is read as a counter of 0. *)
Theorem free_user_below_the_limit_is_served env user s :
  isPaidSubscriber user = false ->
  maxMessagesNotifiedAt (dailyMessagesOf s (id user)) = None ->
  count (dailyMessagesOf s (id user)) < MAX_FREE_DAILY_MESSAGES env ->
  exists s',
    getActiveUsers env [user] s = (Normal [user], s') /\
    Stores s' s (id user)
      {| count := count (dailyMessagesOf s (id user)) + 1;
         maxMessagesNotifiedAt := None |} /\
    consulted s' = consulted s /\
    handed s' = handed s.
Proof.
  intros Hfree Hnot Hlow. rewrite getActiveUsers_one. unfold serveOne.
  rewrite Hfree. reduce_task. fold (dailyMessagesOf s (id user)).
  rewrite Hnot. simpl. rewrite (geb_false _ _ Hlow). simpl.
  eexists. split; [reflexivity|]. split; [|split; reflexivity].
  rewrite Hnot. stores.
Qed.

Lemma free_user_below_the_limit_is_served_witness :
  exists s',
    getActiveUsers quietServices [alice] noCounters = (Normal [alice], s') /\
    Stores s' noCounters "1001"
      {| count := 0 + 1; maxMessagesNotifiedAt := None |} /\
    consulted s' = 0%nat /\
    handed s' = [].
Proof.
  apply (free_user_below_the_limit_is_served quietServices alice noCounters).
  - reflexivity.
  - reflexivity.
  - simpl. lia.
Defined.

(** A free user whose counter has reached the limit is told so once: the
    first turn stores the date of the notice and sends the start message,
    and a second turn, while the clock does not put that date outside the
    six hours, reads the clock and does nothing else.  The user is served in
    neither turn. *)
Theorem limit_notice_is_sent_once env user s :
  isPaidSubscriber user = false ->
  maxMessagesNotifiedAt (dailyMessagesOf s (id user)) = None ->
  MAX_FREE_DAILY_MESSAGES env <= count (dailyMessagesOf s (id user)) ->
  sendMessage env (S (consulted s)) (id user)
    (StartMessage user BOOSTS (count (dailyMessagesOf s (id user))))
  = Normal tt ->
  isTimeOutsideIntervalMs env (S (S (consulted s)))
    (newDate env (consulted s)) (MILLISECONDS_IN_AN_HOUR env * 6) = false ->
  exists s',
    getActiveUsers env [user; user] s = (Normal [], s') /\
    Stores s' s (id user)
      {| count := count (dailyMessagesOf s (id user));
         maxMessagesNotifiedAt := Some (newDate env (consulted s)) |} /\
    consulted s' = S (S (S (consulted s))) /\
    handed s'
    = handed s
      ++ [(id user,
           StartMessage user BOOSTS (count (dailyMessagesOf s (id user))))].
Proof.
  intros Hfree Hnot Hfull Hsend Hclock.
  unfold getActiveUsers. rewrite serve_cons. unfold andThen at 1.
  unfold serveOne at 1. rewrite Hfree. reduce_task.
  fold (dailyMessagesOf s (id user)).
  rewrite Hnot. simpl. rewrite (geb_true _ _ Hfull). simpl.
  rewrite Hnot. simpl. rewrite Hsend. simpl.
  rewrite Hfree. reduce_task.
  rewrite String.eqb_refl. simpl. rewrite Hclock. simpl.
  rewrite (geb_true _ _ Hfull). simpl.
  eexists. split; [reflexivity|]. split; [|split; reflexivity].
  stores.
Qed.

Lemma limit_notice_is_sent_once_witness :
  exists s',
    getActiveUsers quietServices [alice; alice]
      (aliceAt {| count := 3; maxMessagesNotifiedAt := None |})
    = (Normal [], s') /\
    Stores s' (aliceAt {| count := 3; maxMessagesNotifiedAt := None |})
      "1001" {| count := 3; maxMessagesNotifiedAt := Some 90000000 |} /\
    consulted s' = 3%nat /\
    handed s' = [] ++ [("1001", StartMessage alice BOOSTS 3)].
Proof.
  apply (limit_notice_is_sent_once quietServices alice
           (aliceAt {| count := 3; maxMessagesNotifiedAt := None |})).
  - reflexivity.
  - reflexivity.
  - simpl. lia.
  - reflexivity.
  - reflexivity.
Defined.

(** When the clock puts the date of the notice outside the six hours, the
    counter restarts: the entry is set to a counter of 0 without a notice,
    the message that the limits are resumed is sent and, the limit being
    positive, the user is served in the same turn with a counter of 1. *)
Theorem daily_limit_is_resumed env user s notifiedAt :
  isPaidSubscriber user = false ->
  maxMessagesNotifiedAt (dailyMessagesOf s (id user)) = Some notifiedAt ->
  isTimeOutsideIntervalMs env (consulted s) notifiedAt
    (MILLISECONDS_IN_AN_HOUR env * 6) = true ->
  sendMessage env (S (consulted s)) (id user) DailyLimitsResumed
  = Normal tt ->
  0 < MAX_FREE_DAILY_MESSAGES env ->
  exists s',
    getActiveUsers env [user] s = (Normal [user], s') /\
    Stores s' s (id user) {| count := 1; maxMessagesNotifiedAt := None |} /\
    consulted s' = S (S (consulted s)) /\
    handed s' = handed s ++ [(id user, DailyLimitsResumed)].
Proof.
  intros Hfree Hnot Hclock Hsend Hmax.
  rewrite getActiveUsers_one. unfold serveOne. rewrite Hfree. reduce_task.
  fold (dailyMessagesOf s (id user)).
  rewrite Hnot. simpl. rewrite Hclock. simpl. rewrite Hsend. simpl.
  rewrite (geb_false 0 _ Hmax). simpl.
  eexists. split; [reflexivity|]. split; [|split; reflexivity].
  stores.
Qed.

Lemma daily_limit_is_resumed_witness :
  exists s',
    getActiveUsers quietServices [alice]
      (aliceAt {| count := 3; maxMessagesNotifiedAt := Some 1000 |})
    = (Normal [alice], s') /\
    Stores s' (aliceAt {| count := 3; maxMessagesNotifiedAt := Some 1000 |})
      "1001" {| count := 1; maxMessagesNotifiedAt := None |} /\
    consulted s' = 2%nat /\
    handed s' = [] ++ [("1001", DailyLimitsResumed)].
Proof.
  apply (daily_limit_is_resumed quietServices alice
           (aliceAt {| count := 3; maxMessagesNotifiedAt := Some 1000 |})
           1000).
  - reflexivity.
  - reflexivity.
  - reflexivity.
  - reflexivity.
  - simpl. lia.
Defined.

(** The map is written before the message is sent.  When the Telegram
    service rejects the notice that the limit is reached, [getActiveUsers]
    throws without serving the users that remain, and the date of the notice
    stays stored; when it rejects the message that the limits are resumed,
    the counter stays reset. *)
Theorem rejected_message_leaves_the_entry_written env user rest s :
  isPaidSubscriber user = false ->
  (maxMessagesNotifiedAt (dailyMessagesOf s (id user)) = None ->
   MAX_FREE_DAILY_MESSAGES env <= count (dailyMessagesOf s (id user)) ->
   sendMessage env (S (consulted s)) (id user)
     (StartMessage user BOOSTS (count (dailyMessagesOf s (id user))))
   = Thrown ->
   exists s',
     getActiveUsers env (user :: rest) s = (Thrown, s') /\
     Stores s' s (id user)
       {| count := count (dailyMessagesOf s (id user));
          maxMessagesNotifiedAt := Some (newDate env (consulted s)) |}) /\
  (forall notifiedAt,
      maxMessagesNotifiedAt (dailyMessagesOf s (id user)) = Some notifiedAt ->
      isTimeOutsideIntervalMs env (consulted s) notifiedAt
        (MILLISECONDS_IN_AN_HOUR env * 6) = true ->
      sendMessage env (S (consulted s)) (id user) DailyLimitsResumed
      = Thrown ->
      exists s',
        getActiveUsers env (user :: rest) s = (Thrown, s') /\
        Stores s' s (id user) {| count := 0; maxMessagesNotifiedAt := None |}).
Proof.
  intros Hfree. split.
  - intros Hnot Hfull Hsend.
    unfold getActiveUsers. rewrite serve_cons. unfold andThen at 1.
    unfold serveOne. rewrite Hfree. reduce_task.
    fold (dailyMessagesOf s (id user)).
    rewrite Hnot. simpl. rewrite (geb_true _ _ Hfull). simpl.
    rewrite Hnot. simpl. rewrite Hsend. simpl.
    eexists. split; [reflexivity|]. stores.
  - intros notifiedAt Hnot Hclock Hsend.
    unfold getActiveUsers. rewrite serve_cons. unfold andThen at 1.
    unfold serveOne. rewrite Hfree. reduce_task.
    fold (dailyMessagesOf s (id user)).
    rewrite Hnot. simpl. rewrite Hclock. simpl. rewrite Hsend. simpl.
    eexists. split; [reflexivity|]. stores.
Qed.

Lemma rejected_message_leaves_the_entry_written_witness :
  (exists s',
      getActiveUsers deafServices [alice; peggy]
        (aliceAt {| count := 3; maxMessagesNotifiedAt := None |})
      = (Thrown, s') /\
      Stores s' (aliceAt {| count := 3; maxMessagesNotifiedAt := None |})
        "1001" {| count := 3; maxMessagesNotifiedAt := Some 90000000 |}) /\
  (exists s',
      getActiveUsers deafServices [alice; peggy]
        (aliceAt {| count := 3; maxMessagesNotifiedAt := Some 1000 |})
      = (Thrown, s') /\
      Stores s' (aliceAt {| count := 3; maxMessagesNotifiedAt := Some 1000 |})
        "1001" {| count := 0; maxMessagesNotifiedAt := None |}).
Proof.
  split.
  - apply (proj1 (rejected_message_leaves_the_entry_written deafServices
                    alice [peggy]
                    (aliceAt {| count := 3; maxMessagesNotifiedAt := None |})
                    eq_refl)).
    + reflexivity.
    + simpl. lia.
    + reflexivity.
  - apply (proj2 (rejected_message_leaves_the_entry_written deafServices
                    alice [peggy]
                    (aliceAt {| count := 3;
                                maxMessagesNotifiedAt := Some 1000 |})
                    eq_refl) 1000).
    + reflexivity.
    + reflexivity.
    + reflexivity.
Defined.
